(** * MCP server: command execution and output normalisation

    A shallow embedding of [mcp-server.py] (class [MCPServer]): the Docker
    environment validator, the command runner with its timeout, the two output
    formatters and the GitHub Actions status probe, followed by the
    properties of the natural-language specification that concern them.

    Python values are modelled as follows.
    - [str] is a sequence of Unicode code points ([list N]); string literals
      of the source are written as UTF-8 literals and decoded by [u].
    - [bytes] is [list byte]; [bytes.decode()] is the strict UTF-8 decoder.
    - [int] is [Z].  [float] is binary64, as the Standard Library specifies
      it ([spec_float]): a reading of [time.time()] is such a value and the
      subtraction of two readings rounds to the nearest one, ties to even.
    - Awaited calls that touch the outside world (file system, child
      processes, clock, environment variables) are answered by a [World] and
      recorded in a log of events; raised exceptions are values of [exn]. *)

From Stdlib.Strings Require Import String Ascii Byte.
From Stdlib Require Import List NArith ZArith QArith Qpower Bool Lia.
From Stdlib Require Import Floats.SpecFloat.
Import ListNotations.

Local Open Scope N_scope.

(** ** Text *)

Definition char := N.
Definition str := list char.
Definition bytes := list byte.

(** Strict UTF-8 decoding, as [bytes.decode()] does it: shortest form only,
    no surrogates, nothing above U+10FFFF. *)
Definition is_cont (b : N) : bool := (0x80 <=? b) && (b <=? 0xBF).

Definition in_range (lo hi b : N) : bool := (lo <=? b) && (b <=? hi).

Fixpoint utf8_decode_N (bs : list N) : option str :=
  match bs with
  | [] => Some []
  | b0 :: t0 =>
    if b0 <? 0x80 then option_map (cons b0) (utf8_decode_N t0)
    else if in_range 0xC2 0xDF b0 then
      match t0 with
      | b1 :: t1 =>
        if is_cont b1
        then option_map (cons ((b0 - 0xC0) * 64 + (b1 - 0x80))) (utf8_decode_N t1)
        else None
      | _ => None
      end
    else if in_range 0xE0 0xEF b0 then
      match t0 with
      | b1 :: b2 :: t2 =>
        if in_range (if b0 =? 0xE0 then 0xA0 else 0x80)
                    (if b0 =? 0xED then 0x9F else 0xBF) b1 && is_cont b2
        then option_map
               (cons ((b0 - 0xE0) * 4096 + (b1 - 0x80) * 64 + (b2 - 0x80)))
               (utf8_decode_N t2)
        else None
      | _ => None
      end
    else if in_range 0xF0 0xF4 b0 then
      match t0 with
      | b1 :: b2 :: b3 :: t3 =>
        if in_range (if b0 =? 0xF0 then 0x90 else 0x80)
                    (if b0 =? 0xF4 then 0x8F else 0xBF) b1
           && is_cont b2 && is_cont b3
        then option_map
               (cons ((b0 - 0xF0) * 262144 + (b1 - 0x80) * 4096
                      + (b2 - 0x80) * 64 + (b3 - 0x80)))
               (utf8_decode_N t3)
        else None
      | _ => None
      end
    else None
  end.

Definition utf8_decode (b : bytes) : option str :=
  utf8_decode_N (map Byte.to_N b).

(** A string literal of the source. *)
Definition u (s : string) : str :=
  match utf8_decode (list_byte_of_string s) with
  | Some t => t
  | None => []
  end.

(** A bytes literal of the source ([b"..."]). *)
Definition b_lit (s : string) : bytes := list_byte_of_string s.

Arguments u s%_string : simpl never.
Arguments b_lit s%_string : simpl never.

Definition nl : char := 10.

(** [str.isspace] on one code point: the white-space table of CPython. *)
Definition isspace (c : char) : bool :=
  in_range 0x09 0x0D c || in_range 0x1C 0x20 c || (c =? 0x85) || (c =? 0xA0)
  || (c =? 0x1680) || in_range 0x2000 0x200A c || (c =? 0x2028)
  || (c =? 0x2029) || (c =? 0x202F) || (c =? 0x205F) || (c =? 0x3000).

Fixpoint lstrip (s : str) : str :=
  match s with
  | [] => []
  | c :: r => if isspace c then lstrip r else s
  end.

Definition rstrip (s : str) : str := rev (lstrip (rev s)).

(** [s.strip()] *)
Definition strip (s : str) : str := rstrip (lstrip s).

(** [s.split(sep)] for a separator of one character. *)
Fixpoint split (sep : char) (s : str) : list str :=
  match s with
  | [] => [[]]
  | c :: r =>
    if c =? sep then [] :: split sep r
    else match split sep r with
         | h :: t => (c :: h) :: t
         | [] => [[c]]
         end
  end.

(** [s.split()]: maximal runs of characters that are not white space. *)
Fixpoint split_ws_from (cur : option str) (s : str) : list str :=
  match s with
  | [] => match cur with Some w => [rev w] | None => [] end
  | c :: r =>
    if isspace c then
      match cur with
      | Some w => rev w :: split_ws_from None r
      | None => split_ws_from None r
      end
    else split_ws_from (Some (c :: match cur with Some w => w | None => [] end)) r
  end.

Definition split_ws (s : str) : list str := split_ws_from None s.

(** [sep.join(l)] *)
Fixpoint join (sep : str) (l : list str) : str :=
  match l with
  | [] => []
  | x :: r => match r with
              | [] => x
              | _ :: _ => x ++ sep ++ join sep r
              end
  end.

Fixpoint starts_with (p s : list N) : bool :=
  match p, s with
  | [], _ => true
  | _ :: _, [] => false
  | a :: p', b :: s' => (a =? b) && starts_with p' s'
  end.

(** [needle in hay] for two strings (or, on byte values, two [bytes]). *)
Fixpoint contains (needle hay : list N) : bool :=
  starts_with needle hay
  || match hay with
     | [] => false
     | _ :: r => contains needle r
     end.

Definition bytes_contains (needle hay : bytes) : bool :=
  contains (map Byte.to_N needle) (map Byte.to_N hay).

(** Decimal rendering of integers: [str(n)] and [f"{n}"]. *)
Fixpoint uint_chars (d : Decimal.uint) : str :=
  match d with
  | Decimal.Nil => []
  | Decimal.D0 r => 48 :: uint_chars r
  | Decimal.D1 r => 49 :: uint_chars r
  | Decimal.D2 r => 50 :: uint_chars r
  | Decimal.D3 r => 51 :: uint_chars r
  | Decimal.D4 r => 52 :: uint_chars r
  | Decimal.D5 r => 53 :: uint_chars r
  | Decimal.D6 r => 54 :: uint_chars r
  | Decimal.D7 r => 55 :: uint_chars r
  | Decimal.D8 r => 56 :: uint_chars r
  | Decimal.D9 r => 57 :: uint_chars r
  end.

Definition str_of_N (n : N) : str := uint_chars (N.to_uint n).

Definition str_of_Z (z : Z) : str :=
  match z with
  | Z0 => [48]
  | Zpos p => str_of_N (Npos p)
  | Zneg p => 45 :: str_of_N (Npos p)
  end.

(** A rational number with two decimals: the nearest multiple of 1/100,
    ties to the even one, sign first. *)
Definition round_half_even (n d : N) : N :=
  let q := n / d in
  let r := n mod d in
  if d <? 2 * r then q + 1
  else if (d =? 2 * r) && N.odd q then q + 1
  else q.

Definition decimal_2f (x : Q) : str :=
  let h := round_half_even (Z.abs_N (Qnum x) * 100) (Npos (Qden x)) in
  (if (Qnum x <? 0)%Z then [45] else [])
    ++ str_of_N (h / 100) ++ [46; 48 + (h mod 100) / 10; 48 + h mod 10].

(** ** Floats *)

(** [x - y] on binary64 floats: 53 bits of precision, infinities at
    exponent 1024. *)
Definition float_sub (x y : spec_float) : spec_float := SFsub 53 1024 x y.

Definition is_finite (x : spec_float) : bool :=
  match x with
  | S754_zero _ | S754_finite _ _ _ => true
  | S754_infinity _ | S754_nan => false
  end.

(** The sign bit, as [math.copysign(1.0, x) < 0] reads it. *)
Definition signbit (x : spec_float) : bool :=
  match x with
  | S754_zero s | S754_infinity s | S754_finite s _ _ => s
  | S754_nan => false
  end.

(** The rational number a finite float denotes (0 for the others). *)
Definition float_value (x : spec_float) : Q :=
  match x with
  | S754_finite s m e => inject_Z (cond_Zopp s (Zpos m)) * 2 ^ e
  | _ => 0
  end.

(** [f"{x:.2f}"]: the value of the float rounded to two decimals; zeros and
    values that round to zero keep their sign. *)
Definition format_2f (x : spec_float) : str :=
  match x with
  | S754_nan => u "nan"
  | S754_infinity s => (if s then [45] else []) ++ u "inf"
  | S754_zero s => (if s then [45] else []) ++ u "0.00"
  | S754_finite _ _ _ => decimal_2f (float_value x)
  end.

Fixpoint str_eqb (a b : str) : bool :=
  match a, b with
  | [], [] => true
  | x :: a', y :: b' => (x =? y) && str_eqb a' b'
  | _, _ => false
  end.

(** [s.replace(old, new)] for two single characters. *)
Definition replace_char (old new : char) (s : str) : str :=
  map (fun c => if c =? old then new else c) s.

Definition is_nil {A : Type} (l : list A) : bool :=
  match l with [] => true | _ :: _ => false end.

(** ** Values produced by [json.loads] *)

#[warnings="-register-all"]
Inductive json : Type :=
| JNull
| JBool (b : bool)
| JInt (z : Z)
| JFloat (q : Q)
| JNonFinite (literal : str)
| JStr (s : str)
| JList (l : list json)
| JDict (d : list (str * json)).

(** Truth value of a decoded value, as [if v:] and [not v] take it. *)
Definition truthy (v : json) : bool :=
  match v with
  | JNull => false
  | JBool b => b
  | JInt z => negb (z =? 0)%Z
  | JFloat q => negb (Qeq_bool q 0)
  | JNonFinite _ => true
  | JStr s => negb (is_nil s)
  | JList l => negb (is_nil l)
  | JDict d => negb (is_nil d)
  end.

(** [d.get(key, default)] *)
Fixpoint dict_get (d : list (str * json)) (key : str) (default : json) : json :=
  match d with
  | [] => default
  | (k, v) :: r => if str_eqb k key then v else dict_get r key default
  end.

(** [v == 'literal'] *)
Definition eq_str (v : json) (s : str) : bool :=
  match v with
  | JStr t => str_eqb t s
  | _ => false
  end.

(** ** Exceptions, processes and the outside world *)

(** Instances of [Exception].  Cancellation and interrupts, which are not
    instances of [Exception], are outside the model. *)
Inductive exn : Type :=
| TimeoutError
| FileNotFoundError (detail : str)
| OSError (detail : str)
| UnicodeDecodeError (data : bytes)
| JSONDecodeError (doc : str)
| AttributeError (obj : json) (attr : str)
| TypeError (obj : json) (operation : str)
| KeyError (obj : json) (key : str)
| ProcessLookupError.

(** What a child process does once started: how long it runs, what it
    writes and how it exits.  Every process ends eventually. *)
Record process : Type := {
  returncode : Z;
  stdout_data : bytes;
  stderr_data : bytes;
  runtime : Q
}.

Definition Path := list str.

Inductive event : Type :=
| EvExists (p : Path)
| EvSpawn (argv : list str) (cwd : option str)
| EvKill (p : process)
| EvTime
| EvGetenv (name : str).

(** The answers of the outside world.  One call of the server never starts
    the same argument vector twice, so the answer to a spawn is indexed by
    the argument vector; [clock n] is the n-th reading of [time.time()];
    [kill_outcome p] is what [kill()] on [p] does after the timeout: it
    raises [ProcessLookupError] when the child has ended in the meantime. *)
Record World : Type := {
  path_exists : Path -> exn + bool;
  spawn : list str -> exn + process;
  kill_outcome : process -> exn + unit;
  clock : nat -> spec_float;
  environ : str -> option str
}.

(** Computations: read the world, extend the log, return or raise. *)
Definition M (A : Type) : Type :=
  World -> list event -> (exn + A) * list event.

Definition ret {A : Type} (a : A) : M A := fun _ log => (inr a, log).

Definition raise {A : Type} (e : exn) : M A := fun _ log => (inl e, log).

Definition bind {A B : Type} (m : M A) (k : A -> M B) : M B :=
  fun w log =>
    match m w log with
    | (inr a, log') => k a w log'
    | (inl e, log') => (inl e, log')
    end.

(** [try: m  except <class> as e: h e]; [h e = None] when the clause does
    not match [e]. *)
Definition try_except {A : Type} (m : M A) (h : exn -> option (M A)) : M A :=
  fun w log =>
    match m w log with
    | (inr a, log') => (inr a, log')
    | (inl e, log') =>
      match h e with
      | Some k => k w log'
      | None => (inl e, log')
      end
    end.

(** [try: m  except Exception as e: h e] *)
Definition try_except_Exception {A : Type} (m : M A) (h : exn -> M A) : M A :=
  try_except m (fun e => Some (h e)).

Declare Scope monad_scope.
Delimit Scope monad_scope with monad.
Notation "x <- m ;; k" := (bind m (fun x => k))
  (at level 61, m at next level, right associativity) : monad_scope.
Local Open Scope monad_scope.

Definition lift {A : Type} (r : exn + A) : M A := fun _ log => (r, log).

Definition run {A : Type} (m : M A) (w : World) : (exn + A) * list event :=
  m w [].

Definition is_time (e : event) : bool :=
  match e with EvTime => true | _ => false end.

(** [path.exists()] *)
Definition Path_exists (p : Path) : M bool :=
  fun w log => (path_exists w p, log ++ [EvExists p]).

(** [asyncio.create_subprocess_exec] on an argument vector, both output
    streams piped. *)
Definition create_subprocess_exec (argv : list str) (cwd : option str)
  : M process :=
  fun w log => (spawn w argv, log ++ [EvSpawn argv cwd]).

(** [process.communicate()] *)
Definition communicate (p : process) : M (bytes * bytes) :=
  ret (stdout_data p, stderr_data p).

(** [asyncio.wait_for(process.communicate(), timeout=timeout)]: the streams
    of a process that ends within [timeout] seconds, [TimeoutError] for one
    that runs longer. *)
Definition wait_for_communicate (p : process) (timeout : Z)
  : M (bytes * bytes) :=
  if Qle_bool (runtime p) (inject_Z timeout) then communicate p
  else raise TimeoutError.

(** [process.kill()] *)
Definition kill (p : process) : M unit :=
  fun w log => (kill_outcome w p, log ++ [EvKill p]).

(** [time.time()] *)
Definition time_time : M spec_float :=
  fun w log => (inr (clock w (length (filter is_time log))), log ++ [EvTime]).

(** [os.getenv(name)] *)
Definition getenv (name : str) : M (option str) :=
  fun w log => (inr (environ w name), log ++ [EvGetenv name]).

(** [data.decode()] *)
Definition decode (data : bytes) : exn + str :=
  match utf8_decode data with
  | Some s => inr s
  | None => inl (UnicodeDecodeError data)
  end.

Record TextContent : Type := { type : str; text : str }.

Record MCPServer : Type := { project_root : str }.

Record AuthCheck : Type := { authenticated : bool; messages : list str }.

Definition text_content (t : str) : list TextContent :=
  [{| type := u "text"; text := t |}].

(** Truth value of an optional string ([None] and the empty string are
    false). *)
Definition opt_truthy (o : option str) : bool :=
  match o with
  | Some s => negb (is_nil s)
  | None => false
  end.

Definition ascii_lower (c : char) : char :=
  if in_range 65 90 c then c + 32 else c.

(** The severity tags of the specification and the icon the formatter puts
    before a line of each tag. *)
Inductive Tag : Type := SUCCESS | WARNING | ERROR | PLAIN.

Definition icon (t : Tag) : str :=
  match t with
  | SUCCESS => u "✅ "
  | WARNING => u "🟡 "
  | ERROR => u "🔴 "
  | PLAIN => []
  end.

Section Server.

Set Default Proof Using "Type".

(** What the Python runtime supplies and the source does not define:
    - the lower-case form of a code point outside ASCII, given the text
      before and after it ([str.lower] looks at the context of one Greek
      letter);
    - [str(e)] for an exception [e];
    - [json.loads];
    - [repr] of floats and containers;
    - whether slice objects can be hashed, which they can from Python 3.12
      on: it decides the exception of [d[:19]] on a dictionary. *)
Variable unicode_lower : str -> char -> str -> str.
Variable str_of_exn : exn -> str.
Variable json_loads : str -> exn + json.
Variable repr : json -> str.
Variable slice_hashable : bool.

(** [s.lower()] *)
Definition lower_at (before : str) (c : char) (after : str) : str :=
  if c <? 128 then [ascii_lower c] else unicode_lower before c after.

Fixpoint lower_from (before s : str) : str :=
  match s with
  | [] => []
  | c :: r => lower_at before c r ++ lower_from (before ++ [c]) r
  end.

Definition lower (s : str) : str := lower_from [] s.

(** [f"{v}"] for a decoded value. *)
Definition py_str (v : json) : str :=
  match v with
  | JStr s => s
  | JNull => u "None"
  | JBool true => u "True"
  | JBool false => u "False"
  | JInt z => str_of_Z z
  | _ => repr v
  end.

(** *** Output formatters *)

(** [any(word in text for word in words)] *)
Definition any_word_in (words : list str) (text : str) : bool :=
  existsb (fun word => contains word text) words.

(** Body of the loop of [_format_command_output]. *)
Definition command_output_step (formatted_lines : list str) (line : str)
  : list str :=
  if any_word_in [u "success"; u "passed"; u "complete"] (lower line)
  then formatted_lines ++ [u "✅ " ++ line]
  else if any_word_in [u "warning"] (lower line)
  then formatted_lines ++ [u "🟡 " ++ line]
  else if any_word_in [u "error"] (lower line)
  then formatted_lines ++ [u "🔴 " ++ line]
  else formatted_lines ++ [line].

Definition _format_command_output (output : str) : str :=
  let lines := split nl (strip output) in
  let formatted_lines := fold_left command_output_step lines [] in
  join [nl] formatted_lines.

(** Body of the loop of [_format_error_output]. *)
Definition error_output_step (formatted_lines : list str) (line : str)
  : list str :=
  if negb (is_nil (strip line))
  then formatted_lines ++ [u "🔥 " ++ line]
  else formatted_lines.

Definition _format_error_output (output : str) : str :=
  let lines := split nl (strip output) in
  let formatted_lines := fold_left error_output_step lines [] in
  join [nl] formatted_lines.

(** The tag the formatter's cascade gives a line. *)
Definition classify (line : str) : Tag :=
  if any_word_in [u "success"; u "passed"; u "complete"] (lower line)
  then SUCCESS
  else if any_word_in [u "warning"] (lower line) then WARNING
  else if any_word_in [u "error"] (lower line) then ERROR
  else PLAIN.

(** *** Environment validator *)

Definition _validate_docker_environment (self : MCPServer) : M bool :=
  try_except_Exception
    (let compose_file := [project_root self; u "docker-compose.yml"] in
     found <- Path_exists compose_file ;;
     if negb found then ret false
     else
       result <- create_subprocess_exec [u "docker"; u "ps"] None ;;
       _ <- communicate result ;;
       ret (returncode result =? 0)%Z)
    (fun _ => ret false).

(** *** Command runner *)

Definition _run_docker_command (self : MCPServer) (command description : str)
    (timeout : Z) (compose_command : bool) : M (list TextContent) :=
  try_except_Exception
    (valid <- _validate_docker_environment self ;;
     if negb valid then
       ret (text_content (u "❌ Docker environment validation failed. Please ensure Docker is running and docker-compose.yml exists."))
     else
       let cmd :=
         if compose_command then [u "docker-compose"] ++ split_ws command
         else [u "docker-compose"; u "run"; u "--rm"; command] in
       start_time <- time_time ;;
       process <- create_subprocess_exec cmd (Some (project_root self)) ;;
       outcome <-
         try_except
           (streams <- wait_for_communicate process timeout ;;
            ret (inr streams))
           (fun e =>
              match e with
              | TimeoutError =>
                Some (_ <- kill process ;;
                      ret (inl (text_content
                                  (u "❌ Command timed out after "
                                     ++ str_of_Z timeout ++ u " seconds: "
                                     ++ join (u " ") cmd))))
              | _ => None
              end) ;;
       match outcome with
       | inl returned => ret returned
       | inr (stdout, stderr) =>
         now <- time_time ;;
         let execution_time := float_sub now start_time in
         let output_lines :=
           [u "🚀 " ++ description;
            u "📋 Command: " ++ join (u " ") cmd;
            u "⏱️  Execution time: " ++ format_2f execution_time ++ u "s";
            []] in
         output_lines <-
           (if (returncode process =? 0)%Z then
              let output_lines := output_lines ++ [u "✅ Success!"] in
              if negb (is_nil stdout) then
                out <- lift (decode stdout) ;;
                ret (output_lines
                       ++ [u "📄 Output:"; _format_command_output out])
              else ret output_lines
            else
              let output_lines :=
                output_lines
                  ++ [u "❌ Failed with exit code "
                        ++ str_of_Z (returncode process)] in
              output_lines <-
                (if negb (is_nil stderr) then
                   err <- lift (decode stderr) ;;
                   ret (output_lines
                          ++ [u "🔥 Error output:"; _format_error_output err])
                 else ret output_lines) ;;
              if negb (is_nil stdout) then
                out <- lift (decode stdout) ;;
                ret (output_lines
                       ++ [u "📄 Standard output:"; _format_command_output out])
              else ret output_lines) ;;
         ret (text_content (join [nl] output_lines))
       end)
    (fun e => ret (text_content (u "❌ Error executing command: "
                                   ++ str_of_exn e))).

(** *** Registered tools that run a container command *)

Definition format_check (self : MCPServer) : M (list TextContent) :=
  _run_docker_command self (u "format-check")
    (u "Checking C++ code formatting...") 300 false.

Definition format_fix (self : MCPServer) : M (list TextContent) :=
  _run_docker_command self (u "format-fix")
    (u "Auto-fixing C++ formatting...") 300 false.

Definition lint (self : MCPServer) : M (list TextContent) :=
  _run_docker_command self (u "lint") (u "Running C++ linting checks...")
    300 false.

Definition analyze (self : MCPServer) : M (list TextContent) :=
  _run_docker_command self (u "analyze") (u "Running static analysis...")
    300 false.

Definition full_ci (self : MCPServer) : M (list TextContent) :=
  _run_docker_command self (u "ci") (u "Running complete CI pipeline...")
    600 false.

Definition start_dev_env (self : MCPServer) : M (list TextContent) :=
  _run_docker_command self (u "up mcp-server -d") (u "Starting MCP Server...")
    300 true.

Definition stop_dev_env (self : MCPServer) : M (list TextContent) :=
  _run_docker_command self (u "down") (u "Stopping MCP Server...") 300 true.

(** *** GitHub Actions status probe *)

Definition _check_github_auth : M AuthCheck :=
  try_except_Exception
    (process <- create_subprocess_exec [u "gh"; u "--version"] None ;;
     _ <- communicate process ;;
     if negb (returncode process =? 0)%Z then
       ret {| authenticated := false;
              messages :=
                [u "❌ GitHub CLI not found";
                 u "💡 Install GitHub CLI in container: included in Dockerfile";
                 u "📚 Setup guide: ./scripts/setup-github-auth.sh"] |}
     else
       process <- create_subprocess_exec [u "gh"; u "auth"; u "status"] None ;;
       _ <- communicate process ;;
       if (returncode process =? 0)%Z then
         ret {| authenticated := true;
                messages := [u "✅ GitHub CLI authenticated"] |}
       else
         let messages :=
           [u "❌ GitHub CLI not authenticated"; u "🔧 Container setup:"] in
         github_token <- getenv (u "GITHUB_TOKEN") ;;
         has_token <-
           (if opt_truthy github_token then ret true
            else gh_token <- getenv (u "GH_TOKEN") ;;
                 ret (opt_truthy gh_token)) ;;
         let messages :=
           if has_token : bool then
             messages
               ++ [u "  1. GITHUB_TOKEN found in environment";
                   u "  2. Run: echo $GITHUB_TOKEN | gh auth login --with-token"]
           else
             messages
               ++ [u "  1. Set GITHUB_TOKEN environment variable";
                   u "  2. Run: docker-compose up -d mcp-server";
                   u "  3. Or run: ./scripts/setup-github-auth.sh"] in
         let messages :=
           messages
             ++ [[];
                 u "🔑 Token requirements for private repos:";
                 u "  - repo (full control of private repositories)";
                 u "  - workflow (update GitHub Action workflows)";
                 u "  - read:org (read org and team membership)"] in
         ret {| authenticated := false; messages := messages |})
    (fun e =>
       ret {| authenticated := false;
              messages :=
                [u "❌ Error checking GitHub auth: " ++ str_of_exn e;
                 u "💡 Run: ./scripts/setup-github-auth.sh"] |}).

Definition status_icon_of (status conclusion : json) : str :=
  if eq_str status (u "completed") then
    if eq_str conclusion (u "success") then u "✅"
    else if eq_str conclusion (u "failure") then u "❌"
    else if eq_str conclusion (u "cancelled") then u "🚫"
    else u "⚠️"
  else if eq_str status (u "in_progress") then u "🔄"
  else if eq_str status (u "queued") then u "⏳"
  else u "❓".

(** [len(runs)] *)
Definition len (v : json) : exn + N :=
  match v with
  | JStr s => inr (N.of_nat (length s))
  | JList l => inr (N.of_nat (length l))
  | JDict d => inr (N.of_nat (length d))
  | _ => inl (TypeError v (u "len"))
  end.

(** The values [for run in runs] goes through: the elements of a list, the
    keys of a dictionary, the characters of a string. *)
Definition iterate (v : json) : exn + list json :=
  match v with
  | JList l => inr l
  | JDict d => inr (map (fun kv => JStr (fst kv)) d)
  | JStr s => inr (map (fun c => JStr [c]) s)
  | _ => inl (TypeError v (u "iter"))
  end.

(** Body of the loop over the runs in [_check_workflow_runs]. *)
Definition workflow_run_step (output_lines : list str) (run : json)
  : exn + list str :=
  match run with
  | JDict d =>
    let status := dict_get d (u "status") (JStr (u "unknown")) in
    let conclusion := dict_get d (u "conclusion") (JStr (u "unknown")) in
    let name := dict_get d (u "workflowName") (JStr (u "Unknown")) in
    let branch := dict_get d (u "headBranch") (JStr (u "unknown")) in
    let created := dict_get d (u "createdAt") (JStr []) in
    let url := dict_get d (u "url") (JStr []) in
    let run_id := dict_get d (u "databaseId") (JStr []) in
    let status_icon := status_icon_of status conclusion in
    let output_lines :=
      output_lines
        ++ [status_icon ++ u " **" ++ py_str name ++ u "** ("
              ++ py_str branch ++ u ")";
            u "   Status: " ++ py_str status ++ u " | Conclusion: "
              ++ py_str conclusion] in
    match created with
    | JStr c =>
      let output_lines :=
        output_lines
          ++ [u "   Created: " ++ replace_char 84 32 (firstn 19 c);
              u "   Run ID: " ++ py_str run_id] in
      let output_lines :=
        if truthy url then output_lines ++ [u "   URL: " ++ py_str url]
        else output_lines in
      inr (output_lines ++ [[]])
    | JList l => inl (AttributeError (JList (firstn 19 l)) (u "replace"))
    | JDict _ =>
      if slice_hashable
      then inl (KeyError created (u "slice(None, 19, None)"))
      else inl (TypeError created (u "hash"))
    | _ => inl (TypeError created (u "subscript"))
    end
  | _ => inl (AttributeError run (u "get"))
  end.

Fixpoint for_each_run (runs : list json) (output_lines : list str)
  : exn + list str :=
  match runs with
  | [] => inr output_lines
  | run :: rest =>
    match workflow_run_step output_lines run with
    | inl e => inl e
    | inr output_lines => for_each_run rest output_lines
    end
  end.

Definition _check_workflow_runs (self : MCPServer) (limit : Z)
    (workflow_name : option str) : M (list TextContent) :=
  try_except_Exception
    (let output_lines :=
       [u "🔍 GitHub Actions Workflow Status"; repeat 61 40; []] in
     auth_check <- _check_github_auth ;;
     if negb (authenticated auth_check) then
       ret (text_content (join [nl] (output_lines ++ messages auth_check)))
     else
       let cmd :=
         [u "gh"; u "run"; u "list"; u "--limit"; str_of_Z limit; u "--json";
          u "status,conclusion,name,createdAt,headBranch,workflowName,url,databaseId"] in
       let cmd :=
         match workflow_name with
         | Some name =>
           if negb (is_nil name) then cmd ++ [u "--workflow"; name] else cmd
         | None => cmd
         end in
       outcome <-
         try_except
           (process <- create_subprocess_exec cmd (Some (project_root self)) ;;
            streams <- communicate process ;;
            let '(stdout, stderr) := streams in
            if negb (returncode process =? 0)%Z then
              if bytes_contains (b_lit "not found") stderr
                 || bytes_contains (b_lit "No workflows found") stderr
              then
                ret (inl (text_content
                            (join [nl]
                               (output_lines
                                  ++ [u "ℹ️  No workflow runs found";
                                      u "💡 Check if this repository has GitHub Actions enabled"]))))
              else
                err <- lift (decode stderr) ;;
                ret (inl (text_content
                            (join [nl]
                               (output_lines
                                  ++ [u "❌ Error getting workflow runs: "
                                        ++ err]))))
            else
              doc <- lift (decode stdout) ;;
              runs <- lift (json_loads doc) ;;
              if negb (truthy runs) then
                ret (inl (text_content
                            (join [nl]
                               (output_lines
                                  ++ [u "ℹ️  No workflow runs found"]))))
              else
                n <- lift (len runs) ;;
                let output_lines :=
                  output_lines
                    ++ [u "📊 Latest " ++ str_of_N n ++ u " Workflow Runs:";
                        []] in
                items <- lift (iterate runs) ;;
                output_lines <- lift (for_each_run items output_lines) ;;
                ret (inr output_lines))
           (fun e =>
              match e with
              | FileNotFoundError _ =>
                Some (ret (inr (output_lines
                                  ++ [u "❌ GitHub CLI (gh) not found";
                                      u "💡 Install GitHub CLI: https://cli.github.com/";
                                      [];
                                      u "🔧 Alternative: Check workflows manually";
                                      u "   Visit: https://github.com/your-repo/actions"])))
              | _ => None
              end) ;;
       match outcome with
       | inl returned => ret returned
       | inr output_lines => ret (text_content (join [nl] output_lines))
       end)
    (fun e => ret (text_content (u "❌ Error checking workflow runs: "
                                   ++ str_of_exn e))).


(** *** Vocabulary of the specification

    The formatter returns one string; the notions the specification uses
    for it are read off its loop. *)

(** A line as the stdout formatter renders it. *)
Definition format_line (line : str) : str := icon (classify line) ++ line.

(** The tags of the lines the stdout formatter goes through. *)
Definition tags_of (output : str) : list Tag :=
  map classify (split nl (strip output)).

(** Removing from every rendered line the icon its tag had inserted. *)
Definition strip_inserted_icons (tags : list Tag) (rendered : str) : str :=
  join [nl]
    (map (fun tl => skipn (length (icon (fst tl))) (snd tl))
         (combine tags (split nl rendered))).

(** [kw] occurs in [line] up to the case of ASCII letters. *)
Definition ci_contains (kw line : str) : Prop :=
  exists pre w post, line = pre ++ w ++ post /\ map ascii_lower w = kw.

(** A line with a character that is not white space. *)
Definition nonblank (line : str) : bool :=
  existsb (fun c => negb (isspace c)) line.

(** The text shown for a completed run, after the four heading lines. *)
Definition completed_body (p : process) (out err : str) : list str :=
  if (returncode p =? 0)%Z then
    u "✅ Success!"
      :: (if is_nil (stdout_data p) then []
          else [u "📄 Output:"; _format_command_output out])
  else
    (u "❌ Failed with exit code " ++ str_of_Z (returncode p))
      :: (if is_nil (stderr_data p) then []
          else [u "🔥 Error output:"; _format_error_output err])
      ++ (if is_nil (stdout_data p) then []
          else [u "📄 Standard output:"; _format_command_output out]).

(** The argument vector [_run_docker_command] builds. *)
Definition docker_cmd (command : str) (compose_command : bool) : list str :=
  if compose_command then [u "docker-compose"] ++ split_ws command
  else [u "docker-compose"; u "run"; u "--rm"; command].

(** The validator's two checks, as the world answers them. *)
Definition compose_file_found (self : MCPServer) (w : World) : bool :=
  match path_exists w [project_root self; u "docker-compose.yml"] with
  | inr true => true
  | _ => false
  end.

Definition docker_probe_ok (w : World) : bool :=
  match spawn w [u "docker"; u "ps"] with
  | inr p => (returncode p =? 0)%Z
  | inl _ => false
  end.

Arguments docker_cmd : simpl never.

(** The argument vector of the run-list query of [_check_workflow_runs]. *)
Definition gh_run_list_cmd (limit : Z) (workflow_name : option str)
  : list str :=
  let cmd :=
    [u "gh"; u "run"; u "list"; u "--limit"; str_of_Z limit; u "--json";
     u "status,conclusion,name,createdAt,headBranch,workflowName,url,databaseId"] in
  match workflow_name with
  | Some name =>
    if negb (is_nil name) then cmd ++ [u "--workflow"; name] else cmd
  | None => cmd
  end.

Arguments gh_run_list_cmd : simpl never.

(** [gh] is installed and logged in: both probes of [_check_github_auth]
    start and exit with code 0. *)
Definition gh_ready (w : World) : bool :=
  match spawn w [u "gh"; u "--version"] with
  | inr p =>
    (returncode p =? 0)%Z
    && match spawn w [u "gh"; u "auth"; u "status"] with
       | inr q => (returncode q =? 0)%Z
       | inl _ => false
       end
  | inl _ => false
  end.

(** Guidance that tells what to install or run: one of the instruction
    lines of [_check_github_auth]. *)
Definition actionable (guidance : list str) : Prop :=
  In (u "💡 Run: ./scripts/setup-github-auth.sh") guidance
  \/ In (u "💡 Install GitHub CLI in container: included in Dockerfile")
        guidance
  \/ In (u "🔧 Container setup:") guidance.

(** The three lines every report of the probe starts with. *)
Definition probe_header : list str :=
  [u "🔍 GitHub Actions Workflow Status"; repeat 61 40; []].

Definition spawned (log : list event) : list (list str) :=
  flat_map (fun e => match e with EvSpawn argv _ => [argv] | _ => [] end) log.

(** *** Project status *)

Definition _get_project_status (self : MCPServer) : M (list TextContent) :=
  try_except_Exception
    (let output_lines :=
       [u "📊 Project Status";
        u "📁 Project root: " ++ project_root self;
        []] in
     docker_status <- _validate_docker_environment self ;;
     let output_lines :=
       output_lines
         ++ [u "🐳 Docker: "
               ++ (if docker_status : bool then u "✅ Available"
                   else u "❌ Not available")] in
     ret (text_content (join [nl] output_lines)))
    (fun e => ret (text_content (u "❌ Error getting project status: "
                                   ++ str_of_exn e))).

(** The registered tool. *)
Definition project_status (self : MCPServer) : M (list TextContent) :=
  _get_project_status self.

(** A word of a command line: not empty, no white space in it. *)
Definition is_word (a : str) : Prop :=
  a <> [] /\ forallb (fun c => negb (isspace c)) a = true.

(** The characters of the word [split_ws_from] is in the middle of. *)
Definition pending (cur : option str) : str :=
  match cur with Some w => w | None => [] end.

(** A run record the loop of [_check_workflow_runs] can render: an object
    whose [createdAt], when present, is a string. *)
Definition renderable (run : json) : Prop :=
  exists d c, run = JDict d /\ dict_get d (u "createdAt") (JStr []) = JStr c.

(** The lines shown for one renderable run. *)
Definition run_block (run : json) : list str :=
  match run with
  | JDict d =>
    let status := dict_get d (u "status") (JStr (u "unknown")) in
    let conclusion := dict_get d (u "conclusion") (JStr (u "unknown")) in
    let url := dict_get d (u "url") (JStr []) in
    [status_icon_of status conclusion ++ u " **"
       ++ py_str (dict_get d (u "workflowName") (JStr (u "Unknown")))
       ++ u "** ("
       ++ py_str (dict_get d (u "headBranch") (JStr (u "unknown")))
       ++ u ")";
     u "   Status: " ++ py_str status ++ u " | Conclusion: "
       ++ py_str conclusion;
     u "   Created: "
       ++ match dict_get d (u "createdAt") (JStr []) with
          | JStr c => replace_char 84 32 (firstn 19 c)
          | _ => []
          end;
     u "   Run ID: " ++ py_str (dict_get d (u "databaseId") (JStr []))]
      ++ (if truthy url then [u "   URL: " ++ py_str url] else [])
      ++ [[]]
  | _ => []
  end.

(** *** Validation of workflow files *)

(** Values produced by [yaml.safe_load]; [YOther] stands for the scalars
    the validator cannot look into (floats, dates, timestamps, binary). *)
#[warnings="-register-all"]
Inductive yaml : Type :=
| YNull
| YBool (b : bool)
| YInt (z : Z)
| YStr (s : str)
| YList (l : list yaml)
| YDict (d : list (yaml * yaml))
| YSet (l : list yaml)
| YOther (description : str).

(** What [yaml.safe_load] does with a text: a value, a [yaml.YAMLError]
    with its message, or another exception. *)
Inductive yaml_parse : Type :=
| Parsed (v : yaml)
| YAMLError (message : str)
| ParseRaises (e : exn).

(** What the validator takes from the file system and from the libraries:
    the files of a directory that match a pattern, the text of a file,
    the YAML reader, the last component of a path, [str] of a key that is
    not a string, and the message of the [TypeError] that an operation
    raises on a value. *)
Record WorkflowFiles : Type := {
  glob : Path -> str -> exn + list Path;
  read_text : Path -> exn + str;
  safe_load : str -> yaml_parse;
  path_name : Path -> str;
  yaml_str : yaml -> str;
  type_error_text : yaml -> str -> str
}.

(** [v == 'literal'] *)
Definition is_ystr (v : yaml) (s : str) : bool :=
  match v with
  | YStr t => str_eqb t s
  | _ => false
  end.

(** [key in d] for a dictionary [d] and a string [key]. *)
Definition dict_has (d : list (yaml * yaml)) (key : str) : bool :=
  existsb (fun kv => is_ystr (fst kv) key) d.

(** [d[key]] for a dictionary [d] and a string [key]. *)
Fixpoint dict_item (d : list (yaml * yaml)) (key : str) : option yaml :=
  match d with
  | [] => None
  | (k, v) :: r => if is_ystr k key then Some v else dict_item r key
  end.

(** [key in v] for any value: [None] when it raises [TypeError]. *)
Definition yaml_contains (v : yaml) (key : str) : option bool :=
  match v with
  | YDict d => Some (dict_has d key)
  | YList l => Some (existsb (fun x => is_ystr x key) l)
  | YSet l => Some (existsb (fun x => is_ystr x key) l)
  | YStr s => Some (contains key s)
  | _ => None
  end.

Section Workflows.

Variable fs : WorkflowFiles.

(** [f"{job_name}"] *)
Definition key_text (k : yaml) : str :=
  match k with
  | YStr s => s
  | _ => yaml_str fs k
  end.

(** Body of the loop over [jobs.items()]. *)
Definition job_step (validation_errors : list str) (job : yaml * yaml)
  : list str :=
  let job_name := fst job in
  match snd job with
  | YDict job_data =>
    let validation_errors :=
      if negb (dict_has job_data (u "runs-on"))
      then validation_errors
             ++ [u "Job '" ++ key_text job_name ++ u "' missing 'runs-on'"]
      else validation_errors in
    if dict_has job_data (u "container") then
      match dict_item job_data (u "container") with
      | Some (YDict container) =>
        if negb (dict_has container (u "image"))
        then validation_errors
               ++ [u "Job '" ++ key_text job_name
                     ++ u "' container missing 'image'"]
        else validation_errors
      | _ => validation_errors
      end
    else validation_errors
  | _ =>
    validation_errors
      ++ [u "Job '" ++ key_text job_name ++ u "' must be a dictionary"]
  end.

(** The checks on one parsed file: the list [validation_errors], or the
    value and the operation of the [TypeError] that stops them. *)
Definition structure_errors (workflow_data : yaml) (yaml_content : str)
  : (yaml * str) + list str :=
  match yaml_contains workflow_data (u "on"),
        yaml_contains workflow_data (u "jobs") with
  | Some has_on, Some has_jobs =>
    let validation_errors :=
      if negb has_on then [u "Missing 'on' trigger definition"] else [] in
    let validation_errors :=
      if negb has_jobs
      then validation_errors ++ [u "Missing 'jobs' definition"]
      else validation_errors in
    let checked :=
      if has_jobs then
        match workflow_data with
        | YDict d =>
          match dict_item d (u "jobs") with
          | Some (YDict jobs) => inr (fold_left job_step jobs validation_errors)
          | Some _ =>
            inr (validation_errors ++ [u "'jobs' must be a dictionary"])
          | None => inl (workflow_data, u "getitem")
          end
        | _ => inl (workflow_data, u "getitem")
        end
      else inr validation_errors in
    match checked with
    | inl failure => inl failure
    | inr validation_errors =>
      let yaml_str := lower yaml_content in
      if contains (u "runs-on: self-hosted") yaml_str
         && negb (contains (u "container:") yaml_str)
      then inr (validation_errors
                  ++ [u "Self-hosted runner without container specification"])
      else inr validation_errors
    end
  | _, _ => inl (workflow_data, u "in")
  end.

(** Body of the loop over the workflow files, on the pair of
    [output_lines] and [all_valid]. *)
Definition file_step (state : list str * bool) (workflow_path : Path)
  : list str * bool :=
  let output_lines := fst state in
  let all_valid := snd state in
  let name := path_name fs workflow_path in
  let validation_error (message : str) :=
    (output_lines
       ++ [u "❌ " ++ name ++ u ": Validation error";
           u "   Error: " ++ message],
     false) in
  match read_text fs workflow_path with
  | inl e => validation_error (str_of_exn e)
  | inr yaml_content =>
    match safe_load fs yaml_content with
    | YAMLError message =>
      (output_lines
         ++ [u "❌ " ++ name ++ u ": YAML syntax error";
             u "   Error: " ++ message],
       false)
    | ParseRaises e => validation_error (str_of_exn e)
    | Parsed workflow_data =>
      match structure_errors workflow_data yaml_content with
      | inl (v, operation) => validation_error (type_error_text fs v operation)
      | inr [] => (output_lines ++ [u "✅ " ++ name ++ u ": Valid"], all_valid)
      | inr validation_errors =>
        ((output_lines ++ [u "⚠️  " ++ name ++ u ":"])
           ++ map (fun error => u "   - " ++ error) validation_errors,
         false)
      end
    end
  end.

Definition _validate_workflow_yaml (self : MCPServer)
    (workflow_file : option str) : M (list TextContent) :=
  try_except_Exception
    (let output_lines :=
       [u "🔍 GitHub Actions YAML Validation"; repeat 61 40; []] in
     let workflows_dir := [project_root self; u ".github"; u "workflows"] in
     found <- Path_exists workflows_dir ;;
     if negb found then
       ret (text_content
              (join [nl]
                 (output_lines
                    ++ [u "❌ No .github/workflows directory found"])))
     else
       chosen <-
         (if opt_truthy workflow_file then
            let name := match workflow_file with Some n => n | None => [] end in
            let workflow_files := [workflows_dir ++ [name]] in
            present <- Path_exists (workflows_dir ++ [name]) ;;
            if negb present then
              ret (inl (text_content
                          (join [nl]
                             (output_lines
                                ++ [u "❌ Workflow file not found: "
                                      ++ name]))))
            else ret (inr workflow_files)
          else
            yml_files <- lift (glob fs workflows_dir (u "*.yml")) ;;
            yaml_files <- lift (glob fs workflows_dir (u "*.yaml")) ;;
            ret (inr (yml_files ++ yaml_files))) ;;
       match chosen with
       | inl returned => ret returned
       | inr workflow_files =>
         if is_nil workflow_files then
           ret (text_content
                  (join [nl]
                     (output_lines ++ [u "ℹ️  No workflow files found"])))
         else
           let output_lines :=
             output_lines
               ++ [u "📋 Validating "
                     ++ str_of_N (N.of_nat (length workflow_files))
                     ++ u " workflow file(s):";
                   []] in
           let state := fold_left file_step workflow_files (output_lines, true) in
           let output_lines := fst state ++ [[]] in
           let output_lines :=
             if snd state
             then output_lines ++ [u "🎉 All workflow files are valid!"]
             else output_lines
                    ++ [u "⚠️  Some workflow files have issues that need attention"] in
           let output_lines :=
             output_lines
               ++ [[];
                   u "💡 Helpful Commands:";
                   u "   - Check workflow runs: Use 'check_workflow_runs' MCP tool";
                   u "   - GitHub CLI: gh workflow list";
                   u "   - GitHub CLI: gh run list --workflow <name>"] in
           ret (text_content (join [nl] output_lines))
       end)
    (fun e => ret (text_content (u "❌ Error validating workflow YAML: "
                                   ++ str_of_exn e))).

(** The lines one file adds to the report, and whether it leaves
    [all_valid] as it is. *)
Definition file_lines (workflow_path : Path) : list str :=
  fst (file_step ([], true) workflow_path).

Definition file_valid (workflow_path : Path) : bool :=
  snd (file_step ([], true) workflow_path).

(** A job the validator has nothing to say about: a dictionary with
    [runs-on] whose [container], when a dictionary, has [image]. *)
Definition job_ok (job : yaml * yaml) : Prop :=
  exists job_data,
    snd job = YDict job_data
    /\ dict_has job_data (u "runs-on") = true
    /\ (forall container,
           dict_item job_data (u "container") = Some (YDict container) ->
           dict_has container (u "image") = true).

(** The first three and the last four lines of a validation report. *)
Definition validation_header : list str :=
  [u "🔍 GitHub Actions YAML Validation"; repeat 61 40; []].

Definition helpful_commands : list str :=
  [[];
   u "💡 Helpful Commands:";
   u "   - Check workflow runs: Use 'check_workflow_runs' MCP tool";
   u "   - GitHub CLI: gh workflow list";
   u "   - GitHub CLI: gh run list --workflow <name>"].

End Workflows.

(** What remains of the probe once the authentication check has passed:
    the body of the inner [try], then its [except FileNotFoundError]. *)
Definition run_list_attempt (self : MCPServer) (w : World) (limit : Z)
    (workflow_name : option str) : exn + list TextContent :=
  match spawn w (gh_run_list_cmd limit workflow_name) with
  | inl e => inl e
  | inr p =>
    if negb (returncode p =? 0)%Z then
      if bytes_contains (b_lit "not found") (stderr_data p)
         || bytes_contains (b_lit "No workflows found") (stderr_data p)
      then
        inr (text_content
               (join [nl]
                  (probe_header
                     ++ [u "ℹ️  No workflow runs found";
                         u "💡 Check if this repository has GitHub Actions enabled"])))
      else
        match decode (stderr_data p) with
        | inl e => inl e
        | inr err =>
          inr (text_content
                 (join [nl]
                    (probe_header
                       ++ [u "❌ Error getting workflow runs: " ++ err])))
        end
    else
      match decode (stdout_data p) with
      | inl e => inl e
      | inr doc =>
        match json_loads doc with
        | inl e => inl e
        | inr runs =>
          if negb (truthy runs) then
            inr (text_content
                   (join [nl]
                      (probe_header ++ [u "ℹ️  No workflow runs found"])))
          else
            match len runs with
            | inl e => inl e
            | inr n =>
              match iterate runs with
              | inl e => inl e
              | inr items =>
                match
                  for_each_run items
                    (probe_header
                       ++ [u "📊 Latest " ++ str_of_N n
                             ++ u " Workflow Runs:"; []])
                with
                | inl e => inl e
                | inr output_lines =>
                  inr (text_content (join [nl] output_lines))
                end
              end
            end
        end
      end
  end.

Definition run_list_report (self : MCPServer) (w : World) (limit : Z)
    (workflow_name : option str) : list TextContent :=
  match run_list_attempt self w limit workflow_name with
  | inr answer => answer
  | inl (FileNotFoundError _) =>
    text_content
      (join [nl]
         (probe_header
            ++ [u "❌ GitHub CLI (gh) not found";
                u "💡 Install GitHub CLI: https://cli.github.com/";
                [];
                u "🔧 Alternative: Check workflows manually";
                u "   Visit: https://github.com/your-repo/actions"]))
  | inl e =>
    text_content (u "❌ Error checking workflow runs: " ++ str_of_exn e)
  end.

(** ** Concrete runtimes and worlds, for the examples *)

(** A lower-case table that leaves every code point outside ASCII as it is. *)
Definition keep_non_ascii : str -> char -> str -> str := fun _ c _ => [c].

(** [str(e)] reduced to the name of the class. *)
Definition class_name (e : exn) : str :=
  match e with
  | TimeoutError => u "TimeoutError"
  | FileNotFoundError _ => u "FileNotFoundError"
  | OSError _ => u "OSError"
  | UnicodeDecodeError _ => u "UnicodeDecodeError"
  | JSONDecodeError _ => u "JSONDecodeError"
  | AttributeError _ _ => u "AttributeError"
  | TypeError _ _ => u "TypeError"
  | KeyError _ _ => u "KeyError"
  | ProcessLookupError => u "ProcessLookupError"
  end.

(** A [repr] that does not look at its argument. *)
Definition opaque_repr (v : json) : str := u "<value>".

(** A JSON reader that knows the empty array only. *)
Definition loads_empty_array (doc : str) : exn + json :=
  if str_eqb (strip doc) (u "[]") then inr (JList [])
  else inl (JSONDecodeError doc).

(** A JSON reader that answers every document with one completed run. *)
Definition loads_one_run (doc : str) : exn + json :=
  inr (JList
         [JDict [(u "status", JStr (u "completed"));
                 (u "conclusion", JStr (u "success"));
                 (u "workflowName", JStr (u "CI"));
                 (u "headBranch", JStr (u "main"));
                 (u "createdAt", JStr (u "2024-01-02T03:04:05Z"));
                 (u "url", JStr (u "https://github.com/o/r/actions/runs/42"));
                 (u "databaseId", JInt 42)]]).

Definition server : MCPServer := {| project_root := u "/workspace" |}.

Definition exits (code : Z) (out err : bytes) (seconds : Q) : process :=
  {| returncode := code; stdout_data := out; stderr_data := err;
     runtime := seconds |}.

Definition argv_eqb (a b : list str) : bool :=
  (length a =? length b)%nat && forallb (fun xy => str_eqb (fst xy) (snd xy)) (combine a b).

(** The float that is [z] quarters of a second. *)
Definition quarters (z : Z) : spec_float :=
  binary_normalize 53 1024 z (-2) false.

(** A world with the compose file, a running Docker daemon, a clock that
    advances by a quarter of a second per reading, and one given process
    behind every other command. *)
Definition docker_world (p : process) : World :=
  {| path_exists := fun _ => inr true;
     spawn := fun argv =>
       if argv_eqb argv [u "docker"; u "ps"] then inr (exits 0 [] [] 0)
       else inr p;
     kill_outcome := fun _ => inr tt;
     clock := fun n => quarters (Z.of_nat n);
     environ := fun _ => None |}.

(** The same world with a clock that was set back between two readings. *)
Definition clock_set_back_world (p : process) : World :=
  {| path_exists := path_exists (docker_world p);
     spawn := spawn (docker_world p);
     kill_outcome := fun _ => inr tt;
     clock := fun n => quarters (40 - Z.of_nat n);
     environ := fun _ => None |}.


(** A world whose clock reads 252.43898956001436 and then
    1762165823.5639896. *)
Definition clock_step_world (p : process) : World :=
  {| path_exists := path_exists (docker_world p);
     spawn := spawn (docker_world p);
     kill_outcome := fun _ => inr tt;
     clock := fun n =>
       match n with
       | O => S754_finite false 8881907338408322 (-45)
       | _ => S754_finite false 7391059162437736 (-22)
       end;
     environ := fun _ => None |}.

(** The same without the compose file. *)
Definition no_compose_world : World :=
  {| path_exists := fun _ => inr false;
     spawn := fun _ => inr (exits 0 [] [] 0);
     kill_outcome := fun _ => inr tt;
     clock := fun _ => S754_zero false;
     environ := fun _ => None |}.

(** A world in which the [gh] executable does not exist. *)
Definition no_gh_world : World :=
  {| path_exists := fun _ => inr true;
     spawn := fun _ => inl (FileNotFoundError (u "gh"));
     kill_outcome := fun _ => inr tt;
     clock := fun _ => S754_zero false;
     environ := fun _ => None |}.

(** A world in which [gh] is installed and every [gh] command exits with
    the given process. *)
Definition gh_world (auth runs : process) : World :=
  {| path_exists := fun _ => inr true;
     spawn := fun argv =>
       if argv_eqb argv [u "gh"; u "--version"] then inr (exits 0 [] [] 0)
       else if argv_eqb argv [u "gh"; u "auth"; u "status"] then inr auth
       else inr runs;
     kill_outcome := fun _ => inr tt;
     clock := fun _ => S754_zero false;
     environ := fun _ => None |}.

Definition lint_stdout : bytes :=
  b_lit "Checking... 0 warnings" ++ [x0a] ++ b_lit "All checks passed".

(** A world with a running Docker daemon in which [docker-compose] is not
    installed. *)
Definition no_compose_binary_world : World :=
  {| path_exists := fun _ => inr true;
     spawn := fun argv =>
       if argv_eqb argv [u "docker"; u "ps"] then inr (exits 0 [] [] 0)
       else inl (FileNotFoundError (u "docker-compose"));
     kill_outcome := fun _ => inr tt;
     clock := fun _ => S754_zero false;
     environ := fun _ => None |}.

(** A world in which [gh] is logged out and only [GH_TOKEN] is set. *)
Definition gh_token_world : World :=
  {| path_exists := fun _ => inr true;
     spawn := fun argv =>
       if argv_eqb argv [u "gh"; u "--version"] then inr (exits 0 [] [] 0)
       else inr (exits 1 [] [] 0);
     kill_outcome := fun _ => inr tt;
     clock := fun _ => S754_zero false;
     environ := fun name =>
       if str_eqb name (u "GH_TOKEN") then Some (u "ghp_x") else None |}.

(** A world in which [gh] is ready but the run-list query cannot be started
    in the project root. *)
Definition missing_root_world : World :=
  {| path_exists := fun _ => inr true;
     spawn := fun argv =>
       if argv_eqb argv [u "gh"; u "--version"] then inr (exits 0 [] [] 0)
       else if argv_eqb argv [u "gh"; u "auth"; u "status"]
            then inr (exits 0 [] [] 0)
            else inl (FileNotFoundError (u "/workspace"));
     kill_outcome := fun _ => inr tt;
     clock := fun _ => S754_zero false;
     environ := fun _ => None |}.

(** A JSON reader that answers every document with two runs, the second of
    which has a number for [createdAt]. *)
Definition loads_bad_run (doc : str) : exn + json :=
  inr (JList [JDict [(u "workflowName", JStr (u "CI"))];
              JDict [(u "createdAt", JInt 0)]]).

(** A JSON reader that answers every document with one run whose
    [createdAt] is an object. *)
Definition loads_object_created_at (doc : str) : exn + json :=
  inr (JList [JDict [(u "createdAt", JDict [])]]).

(** A JSON reader that answers every document with an error object. *)
Definition loads_object (doc : str) : exn + json :=
  inr (JDict [(u "message", JStr (u "Not Found"))]).

(** A directory with two workflow files.  The reader knows two texts: the
    first is a workflow with one job, the second is the same workflow as a
    reader of YAML 1.1 sees it, with the key [on] read as the boolean
    true. *)
Definition good_workflow : yaml :=
  YDict [(YStr (u "on"), YStr (u "push"));
         (YStr (u "jobs"),
          YDict [(YStr (u "build"),
                  YDict [(YStr (u "runs-on"), YStr (u "ubuntu-latest"))])])].

Definition on_as_true_workflow : yaml :=
  YDict [(YBool true, YStr (u "push"));
         (YStr (u "jobs"),
          YDict [(YStr (u "build"),
                  YDict [(YStr (u "runs-on"), YStr (u "ubuntu-latest"))])])].

Definition last_component (p : Path) : str := last p [].

Definition two_workflows : WorkflowFiles :=
  {| glob := fun dir pattern =>
       if str_eqb pattern (u "*.yml")
       then inr [dir ++ [u "ci.yml"]; dir ++ [u "deploy.yml"]]
       else inr [];
     read_text := fun p =>
       if str_eqb (last_component p) (u "ci.yml") then inr (u "ci")
       else inr (u "deploy");
     safe_load := fun text =>
       if str_eqb text (u "ci") then Parsed good_workflow
       else Parsed on_as_true_workflow;
     path_name := last_component;
     yaml_str := fun _ => u "<key>";
     type_error_text := fun _ _ => u "<type error>" |}.

(** A JSON reader that answers every document with [null]. *)
Definition loads_null (doc : str) : exn + json := inr JNull.

(** ** Properties of the text operations *)

Example split_ws_check :
  split_ws (u "up mcp-server  -d ") = [u "up"; u "mcp-server"; u "-d"].
Proof. reflexivity. Qed.

Example split_check : split nl (u "a" ++ [nl; nl] ++ u "b" ++ [nl])
                      = [u "a"; []; u "b"; []].
Proof. reflexivity. Qed.

Example strip_check : strip ([nl; 32] ++ u "a b" ++ [9; nl]) = u "a b".
Proof. reflexivity. Qed.

Example decimal_2f_check :
  (decimal_2f (1234 # 1000), decimal_2f (1 # 8), decimal_2f (3 # 8),
   decimal_2f (-(5 # 1)), decimal_2f 300)
  = (u "1.23", u "0.12", u "0.38", u "-5.00", u "300.00").
Proof. reflexivity. Qed.

(** 0.125, 0.375, -0.0, -0.001, 300.0 and the infinity. *)
Example format_2f_check :
  (format_2f (S754_finite false 4503599627370496 (-55)),
   format_2f (S754_finite false 6755399441055744 (-54)),
   format_2f (S754_zero true),
   format_2f (S754_finite true 4722366482869645 (-62)),
   format_2f (S754_finite false 5277655813324800 (-44)),
   format_2f (S754_infinity false))
  = (u "0.12", u "0.38", u "-0.00", u "-0.00", u "300.00", u "inf").
Proof. vm_compute. reflexivity. Qed.

(** The subtraction rounds: 1762165823.5639896 - 252.43898956001436 is
    shown as 1762165571.12, where the exact difference of the two values
    would be shown as 1762165571.13; 0.375 - 1e-17 is 0.375. *)
Example float_sub_check :
  (format_2f (float_sub (S754_finite false 7391059162437736 (-22))
                (S754_finite false 8881907338408322 (-45))),
   decimal_2f (float_value (S754_finite false 7391059162437736 (-22))
               - float_value (S754_finite false 8881907338408322 (-45))),
   format_2f (float_sub (S754_finite false 6755399441055744 (-54))
                (S754_finite false 6490371073168535 (-109))))
  = (u "1762165571.12", u "1762165571.13", u "0.38").
Proof. vm_compute. reflexivity. Qed.

Example str_of_Z_check : (str_of_Z 300, str_of_Z 0, str_of_Z (-1)) = (u "300", u "0", u "-1").
Proof. reflexivity. Qed.

Example u_check : u "✅ ok" = [0x2705; 32; 111; 107].
Proof. reflexivity. Qed.

Example u_fire : u "🔥" = [0x1F525].
Proof. reflexivity. Qed.

(** Proofs that do not concern the runtime forget it first. *)
Ltac forget_runtime :=
  repeat match goal with
         | f : str -> char -> str -> str |- _ => clear f
         | f : exn -> str |- _ => clear f
         | f : str -> exn + json |- _ => clear f
         | f : json -> str |- _ => clear f
         end.


Lemma split_not_nil (sep : char) (s : str) : split sep s <> [].
Proof.
  destruct s as [|c r]; simpl; [discriminate|].
  destruct (c =? sep); [discriminate|].
  destruct (split sep r); discriminate.
Qed.

Lemma split_no_sep (sep : char) (s : str) : ~ In sep s -> split sep s = [s].
Proof.
  forget_runtime.
  induction s as [|c r IH]; simpl; intros H; [reflexivity|].
  destruct (N.eqb_spec c sep) as [E|E]; [exfalso; auto|].
  rewrite IH by tauto. reflexivity.
Qed.

Lemma split_app_sep (sep : char) (l rest : str) :
  ~ In sep l -> split sep (l ++ sep :: rest) = l :: split sep rest.
Proof.
  forget_runtime.
  induction l as [|c r IH]; simpl; intros H.
  - now rewrite N.eqb_refl.
  - destruct (N.eqb_spec c sep) as [E|E]; [exfalso; auto|].
    rewrite IH by tauto. reflexivity.
Qed.

Lemma split_lines_no_sep (sep : char) (s : str) :
  Forall (fun l => ~ In sep l) (split sep s).
Proof.
  forget_runtime.
  induction s as [|c r IH]; simpl.
  - constructor; auto.
  - destruct (N.eqb_spec c sep) as [E|E].
    + constructor; auto.
    + destruct (split sep r) as [|h t]; inversion IH; subst.
      * constructor; [simpl; intuition congruence | constructor].
      * constructor; [simpl; intuition congruence | assumption].
Qed.

Lemma join_split (sep : char) (s : str) : join [sep] (split sep s) = s.
Proof.
  induction s as [|c r IH]; simpl; [reflexivity|].
  destruct (N.eqb_spec c sep) as [E|E].
  - subst c. pose proof (split_not_nil sep r) as Hn.
    destruct (split sep r) as [|h t]; [congruence|].
    simpl in *. now rewrite IH.
  - destruct (split sep r) as [|h t]; simpl in *.
    + now subst r.
    + destruct t; simpl in *; now rewrite <- IH.
Qed.

Lemma split_join (sep : char) (ls : list str) :
  ls <> [] -> Forall (fun l => ~ In sep l) ls ->
  split sep (join [sep] ls) = ls.
Proof.
  induction ls as [|l rest IH]; intros Hn Hall; [congruence|].
  inversion Hall as [|? ? Hl Hrest]; subst.
  destruct rest as [|l' rest'].
  - simpl. now apply split_no_sep.
  - change (join [sep] (l :: l' :: rest'))
      with (l ++ sep :: join [sep] (l' :: rest')).
    rewrite split_app_sep by assumption.
    rewrite IH; [reflexivity | discriminate | assumption].
Qed.

Lemma lstrip_idempotent (s : str) : lstrip (lstrip s) = lstrip s.
Proof.
  induction s as [|c r IH]; simpl; [reflexivity|].
  destruct (isspace c) eqn:E; [assumption|].
  simpl. now rewrite E.
Qed.

Lemma lstrip_app_keep (a b : str) (c : char) :
  isspace c = false -> lstrip (a ++ c :: b) = lstrip a ++ c :: b.
Proof.
  intros Hc. induction a as [|x a IH]; simpl.
  - now rewrite Hc.
  - destruct (isspace x); [assumption | reflexivity].
Qed.

Lemma rstrip_cons_keep (c : char) (r : str) :
  isspace c = false -> rstrip (c :: r) = c :: rstrip r.
Proof.
  intros Hc. unfold rstrip. simpl.
  rewrite lstrip_app_keep by assumption.
  rewrite rev_app_distr. reflexivity.
Qed.

Lemma rstrip_idempotent (s : str) : rstrip (rstrip s) = rstrip s.
Proof.
  unfold rstrip. now rewrite rev_involutive, lstrip_idempotent.
Qed.

Lemma lstrip_head (s : str) :
  lstrip s = [] \/ exists c r, lstrip s = c :: r /\ isspace c = false.
Proof.
  induction s as [|c r IH]; simpl; [now left|].
  destruct (isspace c) eqn:E; [assumption|].
  right. now exists c, r.
Qed.

Lemma strip_idempotent (s : str) : strip (strip s) = strip s.
Proof.
  unfold strip.
  destruct (lstrip_head s) as [E | (c & r & E & Hc)]; rewrite E.
  - reflexivity.
  - rewrite (rstrip_cons_keep c r Hc). simpl. rewrite Hc.
    rewrite <- (rstrip_cons_keep c r Hc). apply rstrip_idempotent.
Qed.

Lemma starts_with_spec (p s : str) :
  starts_with p s = true <-> exists post, s = p ++ post.
Proof.
  revert s. induction p as [|a p IH]; intros s; simpl.
  - split; [intros _; now exists s | reflexivity].
  - destruct s as [|b s].
    + split; [discriminate | intros [post H]; discriminate].
    + rewrite andb_true_iff, N.eqb_eq, IH. split.
      * intros [-> [post ->]]. now exists post.
      * intros [post H]. injection H as -> ->. split; [reflexivity | now exists post].
Qed.

Lemma contains_spec (needle hay : str) :
  contains needle hay = true <-> exists pre post, hay = pre ++ needle ++ post.
Proof.
  induction hay as [|c r IH]; simpl.
  - rewrite orb_false_r, starts_with_spec. split.
    + intros [post H]. now exists [], post.
    + intros (pre & post & H). destruct pre; simpl in H.
      * now exists post.
      * discriminate.
  - rewrite orb_true_iff, starts_with_spec, IH. split.
    + intros [[post H] | (pre & post & H)].
      * now exists [], post.
      * exists (c :: pre), post. now rewrite H.
    + intros (pre & post & H). destruct pre as [|x pre]; simpl in H.
      * left. now exists post.
      * right. injection H as _ H. now exists pre, post.
Qed.

Lemma uint_chars_digits (d : Decimal.uint) :
  Forall (fun c => 48 <= c <= 57) (uint_chars d).
Proof.
  induction d; simpl; constructor; try assumption; lia.
Qed.

Lemma decimal_2f_two_decimals (x : Q) :
  exists whole d1 d2,
    decimal_2f x = whole ++ [46; d1; d2]
    /\ 48 <= d1 <= 57 /\ 48 <= d2 <= 57.
Proof.
  unfold decimal_2f.
  set (h := round_half_even _ _).
  exists ((if (Qnum x <? 0)%Z then [45] else []) ++ str_of_N (h / 100)),
         (48 + (h mod 100) / 10), (48 + h mod 10).
  split; [now rewrite <- app_assoc|].
  assert (H1 : h mod 100 < 100) by (apply N.mod_upper_bound; discriminate).
  assert (H2 : h mod 10 < 10) by (apply N.mod_upper_bound; discriminate).
  assert (H3 : (h mod 100) / 10 < 10)
    by (apply N.Div0.div_lt_upper_bound; lia).
  set (a := h mod 100 / 10) in *. set (b := h mod 10) in *.
  clearbody a b. lia.
Qed.

Lemma decimal_2f_unsigned (x : Q) : (0 <= x)%Q -> ~ In 45 (decimal_2f x).
Proof.
  intros Hx. unfold decimal_2f.
  set (h := round_half_even _ _).
  assert (Hs : (Qnum x <? 0)%Z = false).
  { apply Z.ltb_ge. unfold Qle in Hx. simpl in Hx. lia. }
  rewrite Hs. cbn [app]. intros Hin. apply in_app_or in Hin.
  cbn [In] in Hin.
  destruct Hin as [Hin | [Hin | [Hin | [Hin | []]]]].
  - pose proof (uint_chars_digits (N.to_uint (h / 100))) as Hd.
    rewrite Forall_forall in Hd. specialize (Hd _ Hin). lia.
  - discriminate.
  - set (a := h mod 100 / 10) in *. clearbody a. lia.
  - set (b := h mod 10) in *. clearbody b. lia.
Qed.

(** ** Properties of the float subtraction *)

Lemma binary_round_aux_signbit (prec emax : Z) (s : bool) (mx ex : Z)
    (lx : location) :
  signbit (binary_round_aux prec emax s mx ex lx) = s
  \/ binary_round_aux prec emax s mx ex lx = S754_nan.
Proof.
  unfold binary_round_aux.
  destruct (shr_fexp prec emax mx ex lx) as [mrs' e'].
  destruct (shr_fexp prec emax _ e' loc_Exact) as [mrs'' e''].
  destruct (shr_m mrs''); [now left | | now right].
  destruct (e'' <=? emax - prec)%Z; now left.
Qed.

Lemma binary_normalize_signbit (prec emax m e : Z) :
  (0 <= m)%Z -> signbit (binary_normalize prec emax m e false) = false.
Proof.
  intros Hm. destruct m as [|m|m]; [reflexivity | | lia].
  unfold binary_normalize, binary_round.
  destruct (shl_align _ _ _) as [mz ez].
  destruct (binary_round_aux_signbit prec emax false (Z.pos mz) ez loc_Exact)
    as [H | H]; rewrite H; reflexivity.
Qed.

Lemma pos_iter_xO (m d : positive) :
  Z.pos (Pos.iter xO m d) = (Z.pos m * 2 ^ Z.pos d)%Z.
Proof.
  induction d as [|d IH] using Pos.peano_ind.
  - cbn. lia.
  - rewrite Pos.iter_succ, Pos2Z.inj_succ, Z.pow_succ_r by lia.
    change (Z.pos (Pos.iter xO m d)~0) with (2 * Z.pos (Pos.iter xO m d))%Z.
    rewrite IH. lia.
Qed.

Lemma shl_align_value (m : positive) (e ez : Z) :
  (ez <= e)%Z ->
  Z.pos (fst (shl_align m e ez)) = (Z.pos m * 2 ^ (e - ez))%Z.
Proof.
  intros H. unfold shl_align.
  destruct (ez - e)%Z as [|d|d] eqn:E; try lia.
  - replace (e - ez)%Z with 0%Z by lia. cbn [fst]. lia.
  - cbn [fst]. rewrite pos_iter_xO. f_equal. f_equal. lia.
Qed.

Lemma two_power_pos (e : Z) : (0 < 2 ^ e)%Q.
Proof. apply Qpower_0_lt. reflexivity. Qed.

(** The value of a finite float, written at a smaller exponent. *)
Lemma float_value_aligned (s : bool) (m : positive) (e ez : Z) :
  (ez <= e)%Z ->
  (float_value (S754_finite s m e)
   == inject_Z (cond_Zopp s (Z.pos (fst (shl_align m e ez)))) * 2 ^ ez)%Q.
Proof.
  intros H. cbn [float_value].
  rewrite (shl_align_value m e ez H).
  replace e with ((e - ez) + ez)%Z at 1 by lia.
  rewrite Qpower_plus by discriminate.
  rewrite <- (Zpower_Qpower 2 (e - ez)) by lia.
  rewrite Qmult_assoc, <- inject_Z_mult.
  destruct s; cbn [cond_Zopp]; rewrite ?Z.mul_opp_l; reflexivity.
Qed.

Lemma float_value_signbit (x : spec_float) :
  signbit x = false -> (0 <= float_value x)%Q.
Proof.
  destruct x as [s|s| |s m e]; cbn; intros H; try apply Qle_refl.
  subst s. apply Qmult_le_0_compat.
  - now rewrite <- (Zle_Qle 0).
  - apply Qlt_le_weak, two_power_pos.
Qed.

Lemma finite_nonneg (s : bool) (m : positive) (e : Z) :
  (0 <= float_value (S754_finite s m e))%Q -> s = false.
Proof.
  destruct s; [|reflexivity]. cbn [float_value cond_Zopp]. intros H.
  exfalso. apply (Qle_not_lt _ _ H).
  setoid_replace (inject_Z (- Z.pos m) * 2 ^ e)%Q
    with (- (inject_Z (Z.pos m) * 2 ^ e))%Q.
  - rewrite <- (Qopp_involutive 0) at 1. apply Qopp_lt_compat.
    change (- 0)%Q with 0%Q. apply Qmult_lt_0_compat; [|apply two_power_pos].
    now rewrite <- (Zlt_Qlt 0).
  - rewrite inject_Z_opp. ring.
Qed.

Lemma finite_nonpos (s : bool) (m : positive) (e : Z) :
  (float_value (S754_finite s m e) <= 0)%Q -> s = true.
Proof.
  destruct s; [reflexivity|]. cbn [float_value cond_Zopp]. intros H.
  exfalso. apply (Qle_not_lt _ _ H).
  apply Qmult_lt_0_compat; [|apply two_power_pos].
  now rewrite <- (Zlt_Qlt 0).
Qed.

(** The difference of two finite readings of which the later is not the
    smaller has no sign, unless the later reading is the negative zero. *)
Lemma float_sub_signbit (a b : spec_float) :
  is_finite a = true -> is_finite b = true -> b <> S754_zero true ->
  (float_value a <= float_value b)%Q ->
  signbit (float_sub b a) = false.
Proof.
  intros Ha Hb Hz Hle.
  destruct b as [sb|sb| |sb mb eb]; try discriminate;
    destruct a as [sa|sa| |sa ma ea]; try discriminate.
  - destruct sb, sa; try reflexivity. now elim Hz.
  - cbn. apply finite_nonpos in Hle. now subst sa.
  - cbn. now apply finite_nonneg in Hle.
  - unfold float_sub, SFsub. apply binary_normalize_signbit.
    set (ez := Z.min eb ea).
    rewrite (float_value_aligned sa ma ea ez) in Hle by lia.
    rewrite (float_value_aligned sb mb eb ez) in Hle by lia.
    apply Qmult_lt_0_le_reg_r in Hle; [|apply two_power_pos].
    rewrite <- Zle_Qle in Hle. lia.
Qed.

Lemma format_2f_two_decimals (x : spec_float) :
  is_finite x = true ->
  exists whole d1 d2,
    format_2f x = whole ++ [46; d1; d2]
    /\ 48 <= d1 <= 57 /\ 48 <= d2 <= 57.
Proof.
  destruct x as [s|s| |s m e]; try discriminate; intros _.
  - exists ((if s then [45] else []) ++ [48]), 48, 48.
    split; [destruct s; reflexivity | lia].
  - apply decimal_2f_two_decimals.
Qed.

Lemma format_2f_unsigned (x : spec_float) :
  signbit x = false -> ~ In 45 (format_2f x).
Proof.
  intros H. destruct x as [s|s| |s m e]; cbn in H; subst.
  - vm_compute. intuition discriminate.
  - vm_compute. intuition discriminate.
  - vm_compute. intuition discriminate.
  - apply decimal_2f_unsigned.
    now apply (float_value_signbit (S754_finite false m e)).
Qed.

(** ** Properties of the formatters *)

Lemma ascii_lower_below (c : char) : ascii_lower c < 128 -> c < 128.
Proof.
  unfold ascii_lower, in_range.
  destruct (N.leb_spec 65 c), (N.leb_spec c 90); simpl; lia.
Qed.

Lemma ascii_lower_word_below (w kw : str) :
  map ascii_lower w = kw -> Forall (fun c => c < 128) kw ->
  Forall (fun c => c < 128) w.
Proof.
  intros <- H. induction w as [|c w IH]; [constructor|].
  inversion H; subst. constructor; [now apply ascii_lower_below | auto].
Qed.

Lemma lower_from_ascii_prefix (before w post : str) :
  Forall (fun c => c < 128) w ->
  lower_from before (w ++ post)
  = map ascii_lower w ++ lower_from (before ++ w) post.
Proof.
  revert before. induction w as [|c w IH]; intros before H; simpl.
  - now rewrite app_nil_r.
  - inversion H as [|? ? Hc Hw]; subst. unfold lower_at.
    destruct (N.ltb_spec c 128); [|lia]. simpl.
    rewrite IH by assumption. now rewrite <- app_assoc.
Qed.

Lemma lower_from_middle (before pre w post : str) :
  Forall (fun c => c < 128) w ->
  exists x y,
    lower_from before (pre ++ w ++ post)
    = x ++ map ascii_lower w ++ y.
Proof.
  intros Hw. revert before.
  induction pre as [|c pre IH]; intros before; simpl.
  - exists [], (lower_from (before ++ w) post).
    now apply lower_from_ascii_prefix.
  - destruct (IH (before ++ [c])) as (x & y & E). rewrite E.
    exists (lower_at before c (pre ++ w ++ post) ++ x), y.
    now rewrite <- app_assoc.
Qed.

(** Matching is insensitive to the case of ASCII letters: an occurrence of
    a keyword in any mix of cases is found in the lower-cased line. *)
Lemma ci_contains_lower (kw line : str) :
  Forall (fun c => c < 128) kw -> ci_contains kw line ->
  contains kw (lower line) = true.
Proof.
  intros Hkw (pre & w & post & -> & E).
  apply contains_spec.
  destruct (lower_from_middle [] pre w post) as (x & y & H).
  - now apply ascii_lower_word_below with kw.
  - exists x, y. unfold lower. now rewrite H, E.
Qed.

Lemma command_output_step_line (acc : list str) (line : str) :
  command_output_step acc line = acc ++ [format_line line].
Proof.
  unfold command_output_step, format_line, classify.
  destruct (any_word_in _ _); [reflexivity|].
  destruct (any_word_in _ _); [reflexivity|].
  destruct (any_word_in _ _); reflexivity.
Qed.

Lemma fold_command_output (lines acc : list str) :
  fold_left command_output_step lines acc = acc ++ map format_line lines.
Proof.
  revert acc. induction lines as [|l lines IH]; intros acc; simpl.
  - now rewrite app_nil_r.
  - rewrite IH, command_output_step_line, <- app_assoc. reflexivity.
Qed.

Lemma format_command_output_lines (output : str) :
  _format_command_output output
  = join [nl] (map format_line (split nl (strip output))).
Proof.
  unfold _format_command_output. now rewrite fold_command_output.
Qed.

Lemma icon_no_nl (t : Tag) : ~ In nl (icon t).
Proof.
  destruct t; vm_compute; intuition discriminate.
Qed.

Lemma icon_inj (t t' : Tag) : icon t = icon t' -> t = t'.
Proof.
  destruct t, t'; intros H; try reflexivity; vm_compute in H; discriminate.
Qed.

Lemma format_line_no_nl (line : str) :
  ~ In nl line -> ~ In nl (format_line line).
Proof.
  unfold format_line. intros H Hin. apply in_app_or in Hin.
  destruct Hin as [Hin|Hin]; [now apply (icon_no_nl (classify line)) | auto].
Qed.

Lemma rendered_lines (output : str) :
  split nl (_format_command_output output)
  = map format_line (split nl (strip output)).
Proof.
  rewrite format_command_output_lines. apply split_join.
  - pose proof (split_not_nil nl (strip output)) as H.
    destruct (split nl (strip output)); [congruence | discriminate].
  - pose proof (split_lines_no_sep nl (strip output)) as H.
    induction H as [|l ls Hl _ IH]; simpl; constructor;
      [now apply format_line_no_nl | assumption].
Qed.

Lemma skipn_icon (t : Tag) (line : str) :
  skipn (length (icon t)) (icon t ++ line) = line.
Proof.
  induction (icon t) as [|c r IH]; simpl; auto.
Qed.

Lemma strip_icons_of_lines (lines : list str) :
  map (fun tl => skipn (length (icon (fst tl))) (snd tl))
      (combine (map classify lines) (map format_line lines))
  = lines.
Proof.
  induction lines as [|l lines IH]; simpl; [reflexivity|].
  rewrite IH. unfold format_line at 1. now rewrite skipn_icon.
Qed.

Lemma fold_error_output (lines acc : list str) :
  fold_left error_output_step lines acc
  = acc ++ map (app (u "🔥 "))
             (filter (fun l => negb (is_nil (strip l))) lines).
Proof.
  revert acc. induction lines as [|l lines IH]; intros acc; simpl.
  - now rewrite app_nil_r.
  - rewrite IH. unfold error_output_step.
    destruct (negb (is_nil (strip l))); simpl;
      [now rewrite <- app_assoc | reflexivity].
Qed.

Lemma lstrip_nil_blank (line : str) :
  is_nil (lstrip line) = negb (nonblank line).
Proof.
  induction line as [|c r IH]; simpl; [reflexivity|].
  destruct (isspace c); simpl; [assumption | reflexivity].
Qed.

Lemma strip_nil_blank (line : str) :
  negb (is_nil (strip line)) = nonblank line.
Proof.
  rewrite <- (negb_involutive (nonblank line)), <- lstrip_nil_blank.
  f_equal. unfold strip.
  destruct (lstrip_head line) as [E | (c & r & E & Hc)]; rewrite E.
  - reflexivity.
  - now rewrite (rstrip_cons_keep c r Hc).
Qed.

(** ** Properties of the validator and of the command runner *)

Lemma validate_run (self : MCPServer) (w : World) (log : list event) :
  _validate_docker_environment self w log
  = (inr (compose_file_found self w && docker_probe_ok w),
     log ++ EvExists [project_root self; u "docker-compose.yml"]
         :: (if compose_file_found self w
             then [EvSpawn [u "docker"; u "ps"] None] else [])).
Proof.
  unfold _validate_docker_environment, try_except_Exception, try_except,
    bind, Path_exists, create_subprocess_exec, communicate, ret,
    compose_file_found, docker_probe_ok.
  destruct (path_exists w _) as [e|[|]]; simpl; try reflexivity.
  destruct (spawn w _) as [e|p]; simpl; now rewrite <- app_assoc.
Qed.

Lemma validated_true (self : MCPServer) (w : World) :
  fst (run (_validate_docker_environment self) w) = inr true ->
  compose_file_found self w = true /\ docker_probe_ok w = true.
Proof.
  unfold run. rewrite validate_run. simpl. intros H.
  apply andb_true_iff. congruence.
Qed.


(** C7: the validator answers true exactly when the compose file exists
    under the project root and [docker ps] exits with code 0; whatever goes
    wrong, an exception of the file check or of the launch of the probe
    included, the answer is false, and the call never raises. *)
Theorem validate_docker_environment_total (self : MCPServer) (w : World) :
  (fst (run (_validate_docker_environment self) w) = inr true
   <-> path_exists w [project_root self; u "docker-compose.yml"] = inr true
       /\ exists p, spawn w [u "docker"; u "ps"] = inr p
                    /\ returncode p = 0%Z)
  /\ (fst (run (_validate_docker_environment self) w) = inr true
      \/ fst (run (_validate_docker_environment self) w) = inr false)
  /\ (forall e, spawn w [u "docker"; u "ps"] = inl e ->
                fst (run (_validate_docker_environment self) w) = inr false)
  /\ (forall e, fst (run (_validate_docker_environment self) w) <> inl e).
Proof.
  unfold run. rewrite validate_run. simpl.
  unfold compose_file_found, docker_probe_ok.
  split; [split | split; [|split]].
  - intros H. destruct (path_exists w _) as [e|[|]]; try discriminate.
    split; [reflexivity|].
    destruct (spawn w _) as [e|p]; try discriminate.
    exists p. split; [reflexivity|].
    apply Z.eqb_eq. simpl in H. congruence.
  - intros [-> (p & -> & Hp)]. simpl. now rewrite Hp.
  - destruct (_ && _); auto.
  - intros e ->. now rewrite andb_false_r.
  - discriminate.
Qed.

(** C6: when the validation fails, the report is the single
    environment-failure message, with no command line, no duration line and
    no output section, and the only process the call may have started is
    the [docker ps] probe of the validator. *)
Theorem validation_failure_short_circuits (self : MCPServer) (w : World)
    (command description : str) (timeout : Z) (compose_command : bool) :
  fst (run (_validate_docker_environment self) w) = inr false ->
  let result :=
    run (_run_docker_command self command
           description timeout compose_command) w in
  fst result
  = inr (text_content (u "❌ Docker environment validation failed. Please ensure Docker is running and docker-compose.yml exists."))
  /\ (forall argv, In argv (spawned (snd result)) ->
                   argv = [u "docker"; u "ps"])
  /\ ~ In (docker_cmd command compose_command) (spawned (snd result))
  /\ ~ In EvTime (snd result).
Proof.
  unfold run. rewrite validate_run. simpl. intros H.
  assert (E : compose_file_found self w && docker_probe_ok w = false)
    by congruence.
  unfold _run_docker_command, try_except_Exception, try_except, bind.
  rewrite validate_run, E. simpl.
  assert (Hcmd : docker_cmd command compose_command <> [u "docker"; u "ps"]).
  { unfold docker_cmd. destruct compose_command; vm_compute; discriminate. }
  split; [reflexivity|].
  destruct (compose_file_found self w); simpl; repeat split.
  - intros argv [<-|[]]. reflexivity.
  - intros [Heq|[]]. now apply Hcmd.
  - intros [Heq|[Heq|[]]]; discriminate.
  - intros argv [].
  - intros [].
  - intros [Heq|[]]; discriminate.
Qed.


Lemma completed_run (self : MCPServer) (w : World)
    (command description : str) (timeout : Z) (compose_command : bool)
    (p : process) (out err : str) :
  fst (run (_validate_docker_environment self) w) = inr true ->
  spawn w (docker_cmd command compose_command) = inr p ->
  (runtime p <= inject_Z timeout)%Q ->
  decode (stdout_data p) = inr out ->
  (returncode p <> 0%Z -> decode (stderr_data p) = inr err) ->
  run (_run_docker_command self command description timeout
         compose_command) w
  = (inr (text_content
            (join [nl]
               ([u "🚀 " ++ description;
                 u "📋 Command: "
                   ++ join (u " ") (docker_cmd command compose_command);
                 u "⏱️  Execution time: "
                   ++ format_2f (float_sub (clock w 1) (clock w 0))
                   ++ u "s";
                 []]
                  ++ completed_body p out err))),
     [EvExists [project_root self; u "docker-compose.yml"];
      EvSpawn [u "docker"; u "ps"] None;
      EvTime;
      EvSpawn (docker_cmd command compose_command) (Some (project_root self));
      EvTime]).
Proof.
  intros Hv Hs Ht Hout Herr.
  destruct (validated_true self w Hv) as [Hf Hd].
  unfold run, _run_docker_command, try_except_Exception, try_except, bind.
  rewrite validate_run, Hf, Hd.
  change (if compose_command then _ else _)
    with (docker_cmd command compose_command).
  unfold create_subprocess_exec, time_time, ret. cbn.
  rewrite Hs. cbn.
  unfold wait_for_communicate.
  apply Qle_bool_iff in Ht. rewrite Ht. cbn.
  unfold completed_body.
  destruct (returncode p =? 0)%Z eqn:Hrc.
  - destruct (is_nil (stdout_data p)); cbn; [reflexivity|].
    unfold lift. rewrite Hout. reflexivity.
  - apply Z.eqb_neq in Hrc. specialize (Herr Hrc).
    destruct (is_nil (stderr_data p)), (is_nil (stdout_data p)); cbn;
      unfold lift; rewrite ?Herr, ?Hout; cbn; rewrite ?Hout; reflexivity.
Qed.

(** C5, as the code has it: a run that completes within the timeout and
    whose rendered streams are valid UTF-8 is reported as four heading
    lines, in this order: the description of the operation, the argument
    vector that was started, the float difference of the two clock readings
    with two decimals, an empty line; then the success banner and, when
    stdout is not empty, a heading and the classified stdout; or, for an
    exit code other than 0, the failure banner with the code, then a heading
    and the highlighted stderr, then a heading and the classified stdout,
    each only when its stream is not empty.  A finite duration is shown with
    two decimal digits.  The duration has no sign and is not negative
    whenever the readings are finite, the second is not smaller than the
    first and is not the negative zero. *)
Theorem completed_report (self : MCPServer) (w : World)
    (command description : str) (timeout : Z) (compose_command : bool)
    (p : process) (out err : str) :
  fst (run (_validate_docker_environment self) w) = inr true ->
  spawn w (docker_cmd command compose_command) = inr p ->
  (runtime p <= inject_Z timeout)%Q ->
  decode (stdout_data p) = inr out ->
  (returncode p <> 0%Z -> decode (stderr_data p) = inr err) ->
  let result :=
    run (_run_docker_command self command description timeout
           compose_command) w in
  let execution_time := float_sub (clock w 1) (clock w 0) in
  fst result
  = inr (text_content
           (join [nl]
              ([u "🚀 " ++ description;
                u "📋 Command: "
                  ++ join (u " ") (docker_cmd command compose_command);
                u "⏱️  Execution time: " ++ format_2f execution_time
                  ++ u "s";
                []]
                 ++ completed_body p out err)))
  /\ spawned (snd result)
     = [[u "docker"; u "ps"]; docker_cmd command compose_command]
  /\ (is_finite execution_time = true ->
      exists whole d1 d2,
        format_2f execution_time = whole ++ [46; d1; d2]
        /\ 48 <= d1 <= 57 /\ 48 <= d2 <= 57)
  /\ (is_finite (clock w 0) = true -> is_finite (clock w 1) = true ->
      clock w 1 <> S754_zero true ->
      (float_value (clock w 0) <= float_value (clock w 1))%Q ->
      signbit execution_time = false
      /\ (0 <= float_value execution_time)%Q
      /\ ~ In 45 (format_2f execution_time)).
Proof.
  intros Hv Hs Ht Hout Herr result execution_time.
  subst result execution_time.
  rewrite (completed_run self w command description timeout compose_command
             p out err Hv Hs Ht Hout Herr).
  split; [reflexivity | split; [reflexivity | split]].
  - apply format_2f_two_decimals.
  - intros Hf0 Hf1 Hz Hclock.
    pose proof (float_sub_signbit _ _ Hf0 Hf1 Hz Hclock) as Hsign.
    split; [assumption|].
    split; [now apply float_value_signbit | now apply format_2f_unsigned].
Qed.

(** ** The classifier *)

(** C2, as the code has it: every line gets exactly one tag, by looking for
    keywords in the lower-cased line: success, passed or complete first,
    then warning, then error, otherwise none; a line with both error and
    success, in any mix of cases, is tagged SUCCESS.  The line
    "Build succeeded despite 1 error warning" has none of the first three
    words (succeeded is not success) and is tagged WARNING. *)
Theorem classifier_priority (line : str) :
  (forall acc,
      command_output_step acc line = acc ++ [icon (classify line) ++ line])
  /\ (forall t,
         command_output_step [] line = [icon t ++ line] -> t = classify line)
  /\ (any_word_in [u "success"; u "passed"; u "complete"] (lower line) = true
      -> classify line = SUCCESS)
  /\ (any_word_in [u "success"; u "passed"; u "complete"] (lower line) = false
      -> any_word_in [u "warning"] (lower line) = true
      -> classify line = WARNING)
  /\ (any_word_in [u "success"; u "passed"; u "complete"] (lower line) = false
      -> any_word_in [u "warning"] (lower line) = false
      -> any_word_in [u "error"] (lower line) = true
      -> classify line = ERROR)
  /\ (any_word_in [u "success"; u "passed"; u "complete"] (lower line) = false
      -> any_word_in [u "warning"] (lower line) = false
      -> any_word_in [u "error"] (lower line) = false
      -> classify line = PLAIN)
  /\ (ci_contains (u "error") line -> ci_contains (u "success") line
      -> classify line = SUCCESS)
  /\ classify (u "Build succeeded despite 1 error warning") = WARNING.
Proof.
  split; [intros acc; apply command_output_step_line|].
  split.
  { intros t H. rewrite command_output_step_line in H.
    unfold format_line in H. simpl in H. injection H as H.
    apply app_inv_tail in H. symmetry. now apply icon_inj. }
  unfold classify.
  split; [now intros ->|].
  split; [now intros -> ->|].
  split; [now intros -> -> ->|].
  split; [now intros -> -> ->|].
  split; [|vm_compute; reflexivity].
  intros _ Hs.
  assert (H : contains (u "success") (lower line) = true).
  { apply ci_contains_lower; [|assumption].
    vm_compute. repeat constructor. }
  unfold any_word_in. cbn [existsb]. now rewrite H.
Qed.

(** C4, as the code has it: the text is first stripped of leading and
    trailing white space, then split at every newline; the output has one
    line for every segment of the stripped text, empty segments included,
    in the same order, each being the segment behind the icon of its tag. *)
Theorem stdout_lines_follow_stripped_text (output : str) :
  split nl (_format_command_output output)
  = map (fun line => icon (classify line) ++ line) (split nl (strip output))
  /\ length (split nl (_format_command_output output))
     = length (split nl (strip output))
  /\ (forall i line,
         nth_error (split nl (strip output)) i = Some line ->
         nth_error (split nl (_format_command_output output)) i
         = Some (icon (classify line) ++ line)).
Proof.
  rewrite rendered_lines.
  split; [reflexivity|]. split.
  - apply length_map.
  - intros i line H. exact (map_nth_error format_line _ _ H).
Qed.

(** C9: taking the inserted icons off the rendered output gives back the
    stripped text; classifying that again gives the same tags, line by
    line, and the same rendering.  The tag of a line is a function of the
    keywords its lower-cased form contains. *)
Theorem reclassification_is_stable (output : str) :
  strip_inserted_icons (tags_of output) (_format_command_output output)
  = strip output
  /\ tags_of (strip_inserted_icons (tags_of output)
                (_format_command_output output))
     = tags_of output
  /\ _format_command_output
       (strip_inserted_icons (tags_of output)
          (_format_command_output output))
     = _format_command_output output
  /\ (forall l1 l2,
         (forall kw,
             In kw [u "success"; u "passed"; u "complete"; u "warning";
                    u "error"] ->
             contains kw (lower l1) = contains kw (lower l2)) ->
         classify l1 = classify l2).
Proof.
  forget_runtime.
  assert (E : strip_inserted_icons (tags_of output)
                (_format_command_output output) = strip output).
  { unfold strip_inserted_icons, tags_of.
    rewrite rendered_lines, strip_icons_of_lines. apply join_split. }
  rewrite E. split; [reflexivity|]. split; [|split].
  - unfold tags_of. now rewrite strip_idempotent.
  - rewrite !format_command_output_lines. now rewrite strip_idempotent.
  - intros l1 l2 H. unfold classify, any_word_in. cbn [existsb].
    rewrite !(H (u "success")), !(H (u "passed")), !(H (u "complete")),
      !(H (u "warning")), !(H (u "error")); [reflexivity | | | | |];
      cbn [In]; tauto.
Qed.

(** C10, as the code has it: the error formatter strips the whole text of
    leading and trailing white space, splits it at newlines and emits, in
    their order, the lines that have a character other than white space,
    each behind the same marker; blank lines are left out. *)
Theorem error_output_keeps_nonblank_lines (output : str) :
  _format_error_output output
  = join [nl]
      (map (fun line => u "🔥 " ++ line)
           (filter nonblank (split nl (strip output))))
  /\ (forall line,
         In line (filter nonblank (split nl (strip output))) ->
         exists c, In c line /\ isspace c = false).
Proof.
  split.
  - unfold _format_error_output. rewrite fold_error_output. cbn [app].
    f_equal. f_equal. apply filter_ext. intros l. apply strip_nil_blank.
  - intros line H. apply filter_In in H. destruct H as [_ H].
    unfold nonblank in H. apply existsb_exists in H.
    destruct H as (c & Hc & Hs). exists c. split; [assumption|].
    now apply negb_true_iff.
Qed.

(** C3, as the code has it: a lint run that exits with code 0 after writing
    the two lines of the example is reported with the success banner and the
    two lines in their order; the first contains the word warning (in
    warnings) and is tagged WARNING, the second is tagged SUCCESS; nothing
    of stderr is shown. *)
Theorem lint_success_report (self : MCPServer) (w : World) (p : process) :
  fst (run (_validate_docker_environment self) w) = inr true ->
  spawn w [u "docker-compose"; u "run"; u "--rm"; u "lint"] = inr p ->
  returncode p = 0%Z ->
  stdout_data p = lint_stdout ->
  (runtime p <= 300)%Q ->
  fst (run (lint self) w)
  = inr (text_content
           (join [nl]
              [u "🚀 Running C++ linting checks...";
               u "📋 Command: docker-compose run --rm lint";
               u "⏱️  Execution time: "
                 ++ format_2f (float_sub (clock w 1) (clock w 0)) ++ u "s";
               [];
               u "✅ Success!";
               u "📄 Output:";
               u "🟡 Checking... 0 warnings";
               u "✅ All checks passed"]))
  /\ tags_of (u "Checking... 0 warnings" ++ [nl] ++ u "All checks passed")
     = [WARNING; SUCCESS].
Proof.
  intros Hv Hs Hrc Hout Ht.
  split; [|vm_compute; reflexivity].
  unfold lint.
  rewrite (completed_run self w (u "lint")
             (u "Running C++ linting checks...") 300 false p
             (u "Checking... 0 warnings" ++ [nl] ++ u "All checks passed") []).
  - unfold completed_body. rewrite Hrc, Hout. cbn [fst Z.eqb].
    assert (E : _format_command_output
                  (u "Checking... 0 warnings" ++ [nl]
                     ++ u "All checks passed")
                = u "🟡 Checking... 0 warnings" ++ [nl]
                    ++ u "✅ All checks passed")
      by (vm_compute; reflexivity).
    rewrite E.
    assert (C : join (u " ") (docker_cmd (u "lint") false)
                = u "docker-compose run --rm lint")
      by (vm_compute; reflexivity).
    rewrite C.
    change (is_nil lint_stdout) with false. cbn [app join].
    rewrite <- !app_assoc. reflexivity.
  - assumption.
  - assumption.
  - assumption.
  - rewrite Hout. vm_compute. reflexivity.
  - intros H. contradiction.
Qed.

(** ** The GitHub Actions status probe *)

Lemma auth_ready_run (w : World) (log : list event) :
  gh_ready w = true ->
  _check_github_auth w log
  = (inr {| authenticated := true;
            messages := [u "✅ GitHub CLI authenticated"] |},
     (log ++ [EvSpawn [u "gh"; u "--version"] None])
       ++ [EvSpawn [u "gh"; u "auth"; u "status"] None]).
Proof.
  unfold gh_ready, _check_github_auth, try_except_Exception, try_except,
    bind, create_subprocess_exec, communicate, ret.
  destruct (spawn w [u "gh"; u "--version"]) as [e|p]; [discriminate|].
  destruct (returncode p =? 0)%Z; [|discriminate]. cbn.
  destruct (spawn w [u "gh"; u "auth"; u "status"]) as [e|q]; [discriminate|].
  destruct (returncode q =? 0)%Z; [|discriminate]. reflexivity.
Qed.

Lemma auth_not_ready_run (w : World) (log : list event) :
  gh_ready w = false ->
  exists guidance more,
    _check_github_auth w log
    = (inr {| authenticated := false; messages := guidance |}, log ++ more)
    /\ actionable guidance
    /\ (forall argv, In argv (spawned more) ->
                     argv = [u "gh"; u "--version"]
                     \/ argv = [u "gh"; u "auth"; u "status"]).
Proof.
  forget_runtime.
  unfold gh_ready, _check_github_auth, try_except_Exception, try_except,
    bind, create_subprocess_exec, communicate, getenv, ret, actionable.
  destruct (spawn w [u "gh"; u "--version"]) as [e|p].
  { intros _. eexists _, [_]. split; [reflexivity|].
    split; [cbn [In]; auto 12 | cbn; intuition auto]. }
  destruct (returncode p =? 0)%Z; cbn.
  2:{ intros _. eexists _, [_]. split; [reflexivity|].
      split; [cbn [In]; auto 12 | cbn; intuition auto]. }
  destruct (spawn w [u "gh"; u "auth"; u "status"]) as [e|q].
  { intros _. eexists _, [_; _]. rewrite <- app_assoc.
    split; [reflexivity|].
    split; [cbn [In]; auto 12 | cbn; intuition auto]. }
  destruct (returncode q =? 0)%Z; [discriminate|]. intros _.
  destruct (opt_truthy (environ w (u "GITHUB_TOKEN"))) eqn:E1; cbn.
  { eexists _, [_; _; _]. rewrite <- !app_assoc. cbn.
    split; [reflexivity|].
    split; [cbn [In]; auto 12 | cbn; intuition auto]. }
  destruct (opt_truthy (environ w (u "GH_TOKEN"))) eqn:E2; cbn;
    (eexists _, [_; _; _; _]; rewrite <- !app_assoc; cbn;
     split; [reflexivity|];
     split; [cbn [In]; auto 12 | cbn; intuition auto]).
Qed.

(** C8: when [gh] is missing or not logged in, the probe returns its three
    heading lines followed by the guidance of the authentication check,
    which tells what to install or run, and starts nothing but the two
    probes of that check: no run-list query.  When the run-list query
    answers with an empty list, the report ends with the line
    "No workflow runs found" (after an information sign). *)
Theorem probe_terminal_branches (self : MCPServer) (w : World) (limit : Z)
    (workflow_name : option str) :
  (gh_ready w = false ->
   exists guidance,
     fst (run _check_github_auth w)
     = inr {| authenticated := false; messages := guidance |}
     /\ actionable guidance
     /\ fst (run (_check_workflow_runs self limit workflow_name) w)
        = inr (text_content (join [nl] (probe_header ++ guidance)))
     /\ (forall argv,
            In argv (spawned
                       (snd (run (_check_workflow_runs self limit
                                    workflow_name) w))) ->
            argv = [u "gh"; u "--version"]
            \/ argv = [u "gh"; u "auth"; u "status"]))
  /\ (gh_ready w = true ->
      forall p doc,
        spawn w (gh_run_list_cmd limit workflow_name) = inr p ->
        returncode p = 0%Z ->
        decode (stdout_data p) = inr doc ->
        json_loads doc = inr (JList []) ->
        fst (run (_check_workflow_runs self limit workflow_name) w)
        = inr (text_content
                 (join [nl]
                    (probe_header ++ [u "ℹ️  No workflow runs found"])))).
Proof.
  split.
  - intros Hr.
    destruct (auth_not_ready_run w [] Hr) as (guidance & more & E & Ha & Hs).
    exists guidance. unfold run.
    unfold _check_workflow_runs, try_except_Exception, try_except, bind.
    rewrite E. cbn. repeat split; assumption.
  - intros Hr p doc Hs Hrc Hdoc Hjson. unfold run.
    unfold _check_workflow_runs, try_except_Exception, try_except, bind.
    rewrite (auth_ready_run w [] Hr).
    change (match workflow_name with
            | Some name => _
            | None => _
            end) with (gh_run_list_cmd limit workflow_name).
    unfold create_subprocess_exec, communicate, ret. cbn.
    rewrite Hs, Hrc. cbn. unfold lift. rewrite Hdoc, Hjson. reflexivity.
Qed.

(** ** Further properties of the formatters *)

Lemma nonblank_app (a b : str) : nonblank (a ++ b) = nonblank a || nonblank b.
Proof. apply existsb_app. Qed.

Lemma join_cons (sep x : str) (ls : list str) :
  ls <> [] -> join sep (x :: ls) = x ++ sep ++ join sep ls.
Proof. destruct ls; [congruence | reflexivity]. Qed.

Lemma nonblank_join (ls : list str) :
  nonblank (join [nl] ls) = existsb nonblank ls.
Proof.
  induction ls as [|l ls IH]; [reflexivity|].
  destruct ls as [|l' ls].
  - simpl. now rewrite orb_false_r.
  - rewrite join_cons by discriminate.
    rewrite !nonblank_app, IH. reflexivity.
Qed.

Lemma nonblank_strip (s : str) : nonblank (strip s) = nonblank s.
Proof.
  rewrite <- (strip_nil_blank s). unfold strip.
  destruct (lstrip_head s) as [E | (c & r & E & Hc)]; rewrite E.
  - reflexivity.
  - rewrite (rstrip_cons_keep c r Hc). simpl. now rewrite Hc.
Qed.

Lemma nonblank_lines (s : str) :
  existsb nonblank (split nl (strip s)) = nonblank s.
Proof.
  rewrite <- nonblank_join, join_split. apply nonblank_strip.
Qed.

Lemma filter_nil_existsb {A : Type} (f : A -> bool) (l : list A) :
  filter f l = [] <-> existsb f l = false.
Proof.
  induction l as [|x l IH]; simpl; [tauto|].
  destruct (f x); simpl; [split; discriminate | assumption].
Qed.

Lemma error_output_lines (output : str) :
  _format_error_output output
  = join [nl]
      (map (app (u "🔥 ")) (filter nonblank (split nl (strip output)))).
Proof.
  forget_runtime.
  unfold _format_error_output. rewrite fold_error_output. cbn [app].
  f_equal. f_equal. apply filter_ext. intros l. apply strip_nil_blank.
Qed.

Lemma blank_strip_nil (s : str) : nonblank s = false -> strip s = [].
Proof.
  intros H. rewrite <- strip_nil_blank in H. apply negb_false_iff in H.
  destruct (strip s); [reflexivity | discriminate].
Qed.

(** X1: the error formatter returns the empty string exactly when the
    text has nothing but white space; otherwise every line of its output is
    the marker followed by a line that is not blank: the output never has an
    empty or a blank line. *)
Theorem error_output_has_no_blank_line (output : str) :
  (_format_error_output output = [] <-> nonblank output = false)
  /\ (nonblank output = true ->
      Forall (fun l => exists rest,
                  l = u "🔥 " ++ rest /\ nonblank rest = true)
             (split nl (_format_error_output output))).
Proof.
  forget_runtime.
  rewrite error_output_lines.
  set (ls := filter nonblank (split nl (strip output))).
  assert (Hls : ls = [] <-> nonblank output = false).
  { unfold ls. rewrite filter_nil_existsb. now rewrite nonblank_lines. }
  split; [split|].
  - intros H. apply Hls. destruct ls as [|l r]; [reflexivity|].
    exfalso. destruct r; simpl in H; discriminate.
  - intros H. apply Hls in H. now rewrite H.
  - intros H.
    assert (Hne : ls <> []).
    { intros E. apply Hls in E. congruence. }
    rewrite split_join.
    + apply Forall_forall. intros l Hl. apply in_map_iff in Hl.
      destruct Hl as (rest & <- & Hin). exists rest. split; [reflexivity|].
      unfold ls in Hin. apply filter_In in Hin. tauto.
    + destruct ls; [congruence | discriminate].
    + apply Forall_forall. intros l Hl. apply in_map_iff in Hl.
      destruct Hl as (rest & <- & Hin).
      unfold ls in Hin. apply filter_In in Hin. destruct Hin as [Hin _].
      pose proof (split_lines_no_sep nl (strip output)) as Hall.
      rewrite Forall_forall in Hall. specialize (Hall rest Hin).
      intros F. apply in_app_or in F. destruct F as [F|F]; [|auto].
      vm_compute in F. intuition discriminate.
Qed.

Lemma format_line_length (line : str) :
  (length line <= length (format_line line) <= length line + 2)%nat.
Proof.
  unfold format_line. rewrite length_app.
  assert (length (icon (classify line)) <= 2)%nat
    by (destruct (classify line); vm_compute; lia).
  lia.
Qed.

Lemma join_lines_length (ls : list str) :
  (length (join [nl] ls) <= length (join [nl] (map format_line ls))
   <= length (join [nl] ls) + 2 * length ls)%nat.
Proof.
  induction ls as [|l ls IH]; [simpl; lia|].
  pose proof (format_line_length l) as Hl.
  destruct ls as [|l' ls].
  - simpl. lia.
  - change (map format_line (l :: l' :: ls))
      with (format_line l :: map format_line (l' :: ls)).
    rewrite (join_cons [nl] l (l' :: ls)) by discriminate.
    rewrite (join_cons [nl] (format_line l)) by discriminate.
    rewrite !length_app.
    change (length (l :: l' :: ls)) with (S (length (l' :: ls))).
    lia.
Qed.

(** X2: the stdout formatter only adds: its output is at least as long as
    the stripped text and longer by at most two characters (an icon and a
    space) for each line; it is empty exactly when the text has nothing but
    white space. *)
Theorem command_output_only_adds_icons (output : str) :
  (length (strip output) <= length (_format_command_output output)
   <= length (strip output) + 2 * length (split nl (strip output)))%nat
  /\ (_format_command_output output = [] <-> nonblank output = false).
Proof.
  rewrite format_command_output_lines.
  pose proof (join_lines_length (split nl (strip output))) as H.
  rewrite join_split in H. split; [exact H|]. split.
  - intros E. rewrite E in H. simpl in H.
    rewrite <- strip_nil_blank.
    destruct (strip output); [reflexivity | simpl in H; lia].
  - intros E. rewrite (blank_strip_nil output E). vm_compute. reflexivity.
Qed.

Lemma lower_ascii (s : str) :
  Forall (fun c => c < 128) s -> lower s = map ascii_lower s.
Proof.
  intros H. unfold lower.
  pose proof (lower_from_ascii_prefix [] s [] H) as E.
  rewrite !app_nil_r in E. exact E.
Qed.

(** X3: on text made of ASCII characters the classification does not
    depend on the case of letters: two lines that agree once their ASCII
    capitals are lowered get the same tag and the same icon. *)
Theorem classification_ignores_ascii_case (l1 l2 : str) :
  Forall (fun c => c < 128) l1 ->
  Forall (fun c => c < 128) l2 ->
  map ascii_lower l1 = map ascii_lower l2 ->
  classify l1 = classify l2
  /\ exists prefix,
       command_output_step [] l1 = [prefix ++ l1]
       /\ command_output_step [] l2 = [prefix ++ l2].
Proof.
  intros H1 H2 E.
  assert (C : classify l1 = classify l2).
  { unfold classify. now rewrite (lower_ascii l1 H1), (lower_ascii l2 H2), E. }
  split; [assumption|].
  exists (icon (classify l1)). rewrite !command_output_step_line.
  unfold format_line. now rewrite C.
Qed.

(** X4: a line that mentions a keyword, in any mix of cases, is never left
    plain.  With success, passed or complete it is tagged SUCCESS; with
    warning it is tagged SUCCESS or WARNING, never ERROR; with error it gets
    one of the three icons. *)
Theorem keyword_lines_are_never_plain (line : str) :
  (ci_contains (u "success") line \/ ci_contains (u "passed") line
   \/ ci_contains (u "complete") line -> classify line = SUCCESS)
  /\ (ci_contains (u "warning") line ->
      classify line = SUCCESS \/ classify line = WARNING)
  /\ (ci_contains (u "error") line -> classify line <> PLAIN).
Proof.
  forget_runtime.
  assert (K : forall kw,
             In kw [u "success"; u "passed"; u "complete"; u "warning";
                    u "error"] ->
             ci_contains kw line -> contains kw (lower line) = true).
  { intros kw Hin. apply ci_contains_lower. cbn [In] in Hin.
    destruct Hin as [<-|[<-|[<-|[<-|[<-|[]]]]]];
      vm_compute; repeat constructor. }
  unfold classify, any_word_in. cbn [existsb].
  split; [|split].
  - intros [H | [H | H]]; apply K in H; try (cbn [In]; tauto);
      rewrite H; rewrite ?orb_true_r; reflexivity.
  - intros H. apply K in H; [|cbn [In]; tauto]. rewrite H.
    destruct (_ || _); auto.
  - intros H. apply K in H; [|cbn [In]; tauto]. rewrite H.
    destruct (_ || _); [discriminate|].
    destruct (_ || _); discriminate.
Qed.

Lemma nonblank_rev (l : str) : nonblank (rev l) = nonblank l.
Proof.
  forget_runtime. unfold nonblank.
  induction l as [|c l IH]; [reflexivity|].
  simpl. rewrite existsb_app, IH. simpl. rewrite orb_false_r. apply orb_comm.
Qed.

Lemma lstrip_app (a b : str) :
  lstrip (a ++ b) = if is_nil (lstrip a) then lstrip b else lstrip a ++ b.
Proof.
  induction a as [|c a IH]; [reflexivity|].
  simpl. destruct (isspace c); [assumption | reflexivity].
Qed.

Lemma rstrip_cons (c : char) (r : str) :
  rstrip (c :: r)
  = if is_nil (rstrip r) && isspace c then [] else c :: rstrip r.
Proof.
  unfold rstrip. simpl. rewrite lstrip_app.
  destruct (lstrip (rev r)) as [|x t] eqn:E; simpl.
  - destruct (isspace c); reflexivity.
  - destruct (rev t ++ [x]) eqn:F; simpl.
    + destruct (rev t); discriminate.
    + rewrite <- F. now rewrite rev_app_distr.
Qed.

Lemma lstrip_rstrip_comm (l : str) : lstrip (rstrip l) = rstrip (lstrip l).
Proof.
  induction l as [|c r IH]; [reflexivity|].
  rewrite rstrip_cons. simpl lstrip at 2.
  destruct (isspace c) eqn:Hc.
  - rewrite andb_true_r. destruct (rstrip r) as [|x t] eqn:E; simpl.
    + now rewrite <- IH.
    + rewrite Hc. now rewrite <- IH.
  - rewrite andb_false_r. simpl. rewrite Hc.
    now rewrite (rstrip_cons_keep c r Hc).
Qed.

Lemma strip_rev (l : str) : strip (rev l) = rev (strip l).
Proof.
  unfold strip. rewrite <- lstrip_rstrip_comm.
  unfold rstrip. now rewrite !rev_involutive.
Qed.

Lemma join_snoc (sep y : str) (xs : list str) :
  xs <> [] -> join sep (xs ++ [y]) = join sep xs ++ sep ++ y.
Proof.
  induction xs as [|x xs IH]; intros Hn; [congruence|].
  destruct xs as [|x' xs]; [reflexivity|].
  change ((x :: x' :: xs) ++ [y]) with (x :: (x' :: xs) ++ [y]).
  rewrite join_cons by (destruct xs; discriminate).
  rewrite IH by discriminate.
  rewrite (join_cons sep x (x' :: xs)) by discriminate.
  now rewrite <- !app_assoc.
Qed.

Lemma rev_join (ls : list str) :
  rev (join [nl] ls) = join [nl] (rev (map (@rev char) ls)).
Proof.
  induction ls as [|l ls IH]; [reflexivity|].
  destruct ls as [|l' ls]; [reflexivity|].
  rewrite join_cons by discriminate.
  change (map (@rev char) (l :: l' :: ls))
    with (rev l :: map (@rev char) (l' :: ls)).
  change (rev (rev l :: map (@rev char) (l' :: ls)))
    with (rev (map (@rev char) (l' :: ls)) ++ [rev l]).
  rewrite join_snoc.
  - rewrite <- IH. rewrite !rev_app_distr. simpl. now rewrite <- app_assoc.
  - simpl. destruct (rev (map (@rev char) ls)); discriminate.
Qed.

Lemma split_rev (s : str) :
  split nl (rev s) = rev (map (@rev char) (split nl s)).
Proof.
  forget_runtime.
  rewrite <- (join_split nl s) at 1. rewrite rev_join. apply split_join.
  - pose proof (split_not_nil nl s) as H.
    destruct (split nl s) as [|h t]; [congruence|].
    simpl. destruct (rev (map (@rev char) t)); discriminate.
  - apply Forall_forall. intros l Hl.
    apply in_rev, in_map_iff in Hl. destruct Hl as (l0 & <- & Hin).
    pose proof (split_lines_no_sep nl s) as Hall.
    rewrite Forall_forall in Hall. specialize (Hall l0 Hin).
    intros F. apply Hall. now apply in_rev.
Qed.

(** The non-blank lines of a text, each stripped. *)
Lemma stripped_lines_cons_space (c : char) (r : str) :
  isspace c = true ->
  map strip (filter nonblank (split nl (c :: r)))
  = map strip (filter nonblank (split nl r)).
Proof.
  forget_runtime.
  intros Hc. simpl split. destruct (c =? nl); [reflexivity|].
  pose proof (split_not_nil nl r) as Hn.
  destruct (split nl r) as [|h t]; [congruence|].
  simpl filter. unfold nonblank at 1. simpl existsb. rewrite Hc. simpl.
  fold (nonblank h). destruct (nonblank h); [|reflexivity].
  simpl. f_equal. unfold strip. simpl. now rewrite Hc.
Qed.

Lemma stripped_lines_lstrip (s : str) :
  map strip (filter nonblank (split nl (lstrip s)))
  = map strip (filter nonblank (split nl s)).
Proof.
  induction s as [|c r IH]; [reflexivity|].
  simpl lstrip. destruct (isspace c) eqn:Hc; [|reflexivity].
  rewrite IH. symmetry. now apply stripped_lines_cons_space.
Qed.

Lemma stripped_lines_rev (s : str) :
  map strip (filter nonblank (split nl (rev s)))
  = rev (map (@rev char) (map strip (filter nonblank (split nl s)))).
Proof.
  rewrite split_rev, filter_rev, map_rev, filter_map_swap.
  f_equal. rewrite !map_map.
  rewrite (filter_ext (fun a => nonblank (rev a)) nonblank)
    by apply nonblank_rev.
  apply map_ext. intros a. apply strip_rev.
Qed.

Lemma stripped_lines_rstrip (s : str) :
  map strip (filter nonblank (split nl (rstrip s)))
  = map strip (filter nonblank (split nl s)).
Proof.
  unfold rstrip.
  rewrite stripped_lines_rev, stripped_lines_lstrip, stripped_lines_rev.
  rewrite map_rev, rev_involutive, map_map.
  rewrite <- (map_id (map strip _)) at 2.
  apply map_ext. intros a. apply rev_involutive.
Qed.

(** X5: the error formatter emits one line for every line of the text that
    is not blank, in the same order, and each emitted line is the marker
    followed by that line, up to white space at its two ends (the strip of
    the whole text takes the leading white space of the first line and the
    trailing white space of the last). *)
Theorem error_output_follows_input_lines (output : str) :
  exists emitted,
    _format_error_output output = join [nl] (map (app (u "🔥 ")) emitted)
    /\ length emitted = length (filter nonblank (split nl output))
    /\ map strip emitted = map strip (filter nonblank (split nl output)).
Proof.
  forget_runtime.
  exists (filter nonblank (split nl (strip output))).
  assert (E : map strip (filter nonblank (split nl (strip output)))
              = map strip (filter nonblank (split nl output))).
  { unfold strip at 2.
    now rewrite stripped_lines_rstrip, stripped_lines_lstrip. }
  split; [apply error_output_lines|]. split; [|exact E].
  apply (f_equal (@length str)) in E. now rewrite !length_map in E.
Qed.

(** ** Further properties of the command runner *)

(** X6: whatever the world does, a call of the command runner returns one
    text item and raises nothing: every failure inside it is turned into
    text. *)
Theorem run_docker_command_always_answers (self : MCPServer) (w : World)
    (command description : str) (timeout : Z) (compose_command : bool) :
  exists t,
    fst (run (_run_docker_command self command description timeout
                compose_command) w)
    = inr [{| type := u "text"; text := t |}].
Proof.
  unfold run, _run_docker_command, try_except_Exception, try_except, bind.
  rewrite validate_run.
  change (if compose_command then _ else _)
    with (docker_cmd command compose_command).
  unfold create_subprocess_exec, time_time, wait_for_communicate, communicate,
    kill, raise, ret, lift, decode, text_content.
  destruct (compose_file_found self w && docker_probe_ok w);
    [|cbn; eexists; reflexivity].
  cbn.
  destruct (spawn w (docker_cmd command compose_command)) as [e|p];
    [cbn; eexists; reflexivity|].
  cbn.
  destruct (Qle_bool (runtime p) (inject_Z timeout));
    [|cbn; destruct (kill_outcome w p); cbn; eexists; reflexivity].
  cbn.
  destruct (returncode p =? 0)%Z; cbn.
  - destruct (is_nil (stdout_data p)); cbn; [eexists; reflexivity|].
    destruct (utf8_decode (stdout_data p)); cbn; eexists; reflexivity.
  - destruct (is_nil (stderr_data p)); cbn.
    + destruct (is_nil (stdout_data p)); cbn; [eexists; reflexivity|].
      destruct (utf8_decode (stdout_data p)); cbn; eexists; reflexivity.
    + destruct (utf8_decode (stderr_data p)); cbn; [|eexists; reflexivity].
      destruct (is_nil (stdout_data p)); cbn; [eexists; reflexivity|].
      destruct (utf8_decode (stdout_data p)); cbn; eexists; reflexivity.
Qed.

Lemma not_within (x y : Q) : Qle_bool x y = false -> (y < x)%Q.
Proof.
  intros H. apply Qnot_le_lt. intros L. apply Qle_bool_iff in L. congruence.
Qed.

(** The events of a call of the command runner, in every case. *)
Lemma run_docker_log (self : MCPServer) (w : World)
    (command description : str) (timeout : Z) (compose_command : bool) :
  let log :=
    snd (run (_run_docker_command self command description timeout
                compose_command) w) in
  let found := EvExists [project_root self; u "docker-compose.yml"] in
  let probe := EvSpawn [u "docker"; u "ps"] None in
  let start :=
    EvSpawn (docker_cmd command compose_command) (Some (project_root self)) in
  log = [found] \/ log = [found; probe]
  \/ log = [found; probe; EvTime; start]
  \/ (exists p, spawn w (docker_cmd command compose_command) = inr p
                /\ (inject_Z timeout < runtime p)%Q
                /\ log = [found; probe; EvTime; start; EvKill p])
  \/ log = [found; probe; EvTime; start; EvTime].
Proof.
  unfold run, _run_docker_command, try_except_Exception, try_except, bind.
  rewrite validate_run.
  change (if compose_command then _ else _)
    with (docker_cmd command compose_command).
  unfold create_subprocess_exec, time_time, wait_for_communicate, communicate,
    kill, raise, ret, lift, decode, text_content.
  destruct (compose_file_found self w); cbn; [|now left].
  destruct (docker_probe_ok w); cbn; [|right; now left].
  destruct (spawn w (docker_cmd command compose_command)) as [e|p] eqn:Hs;
    cbn; [right; right; now left|].
  destruct (Qle_bool (runtime p) (inject_Z timeout)) eqn:Ht; cbn.
  2:{ right; right; right; left. exists p.
      split; [reflexivity|]. split; [now apply not_within|].
      destruct (kill_outcome w p); reflexivity. }
  right; right; right; right.
  destruct (returncode p =? 0)%Z; cbn.
  - destruct (is_nil (stdout_data p)); cbn; [reflexivity|].
    destruct (utf8_decode (stdout_data p)); cbn; reflexivity.
  - destruct (is_nil (stderr_data p)); cbn.
    + destruct (is_nil (stdout_data p)); cbn; [reflexivity|].
      destruct (utf8_decode (stdout_data p)); cbn; reflexivity.
    + destruct (utf8_decode (stderr_data p)); cbn; [|reflexivity].
      destruct (is_nil (stdout_data p)); cbn; [reflexivity|].
      destruct (utf8_decode (stdout_data p)); cbn; reflexivity.
Qed.

(** X7: a call of the command runner starts at most two processes: the
    [docker ps] probe, without a working directory, and then at most once
    the command of the operation, in the project root.  It reads the clock
    at most twice, and it kills a process only if that is the process of
    the operation and it ran longer than the timeout. *)
Theorem run_docker_command_process_discipline (self : MCPServer) (w : World)
    (command description : str) (timeout : Z) (compose_command : bool) :
  let log :=
    snd (run (_run_docker_command self command description timeout
                compose_command) w) in
  (spawned log = [] \/ spawned log = [[u "docker"; u "ps"]]
   \/ spawned log
      = [[u "docker"; u "ps"]; docker_cmd command compose_command])
  /\ (forall argv cwd,
         In (EvSpawn argv cwd) log ->
         (argv = [u "docker"; u "ps"] /\ cwd = None)
         \/ (argv = docker_cmd command compose_command
             /\ cwd = Some (project_root self)))
  /\ (forall p,
         In (EvKill p) log ->
         spawn w (docker_cmd command compose_command) = inr p
         /\ (inject_Z timeout < runtime p)%Q)
  /\ (length (filter is_time log) <= 2)%nat.
Proof.
  forget_runtime. intros log.
  pose proof (run_docker_log self w command description timeout
                compose_command) as H.
  cbv zeta in H. fold log in H.
  destruct H as [H|[H|[H|[(p & Hs & Ht & H)|H]]]]; rewrite H; cbn;
    (split; [tauto|]); (split; [|split; [|lia]]).
  all: try (intros argv cwd Hin;
            repeat (destruct Hin as [Hin|Hin];
                    [try discriminate; injection Hin as <- <-; tauto|]);
            contradiction).
  all: intros q Hin;
    repeat (destruct Hin as [Hin|Hin];
            [try discriminate; injection Hin as <-; tauto|]);
    contradiction.
Qed.

(** X8: when the command of the operation cannot be started (the
    executable is missing, say), the report is the error line with the text
    of the exception; the clock has been read once and nothing is killed. *)
Theorem spawn_failure_report (self : MCPServer) (w : World)
    (command description : str) (timeout : Z) (compose_command : bool)
    (e : exn) :
  fst (run (_validate_docker_environment self) w) = inr true ->
  spawn w (docker_cmd command compose_command) = inl e ->
  run (_run_docker_command self command description timeout
         compose_command) w
  = (inr (text_content (u "❌ Error executing command: " ++ str_of_exn e)),
     [EvExists [project_root self; u "docker-compose.yml"];
      EvSpawn [u "docker"; u "ps"] None;
      EvTime;
      EvSpawn (docker_cmd command compose_command)
        (Some (project_root self))]).
Proof.
  intros Hv Hs. destruct (validated_true self w Hv) as [Hf Hd].
  unfold run, _run_docker_command, try_except_Exception, try_except, bind.
  rewrite validate_run, Hf, Hd.
  change (if compose_command then _ else _)
    with (docker_cmd command compose_command).
  unfold create_subprocess_exec, time_time, ret. cbn.
  rewrite Hs. reflexivity.
Qed.

Lemma split_ws_concat (cur : option str) (s : str) :
  concat (split_ws_from cur s)
  = rev (pending cur) ++ filter (fun c => negb (isspace c)) s.
Proof.
  revert cur. induction s as [|c r IH]; intros cur.
  - destruct cur; simpl; now rewrite ?app_nil_r.
  - simpl. destruct (isspace c); simpl.
    + destruct cur as [w|]; simpl; rewrite IH; reflexivity.
    + rewrite IH. simpl. now rewrite <- app_assoc.
Qed.

Lemma is_word_rev (w : str) :
  w <> [] -> forallb (fun c => negb (isspace c)) w = true -> is_word (rev w).
Proof.
  forget_runtime.
  intros Hn Hw. split.
  - intros E. apply (f_equal (@rev char)) in E.
    rewrite rev_involutive in E. now apply Hn.
  - apply forallb_forall. intros c Hc. apply in_rev in Hc.
    rewrite forallb_forall in Hw. now apply Hw.
Qed.

Lemma split_ws_words (cur : option str) (s : str) :
  (forall w, cur = Some w ->
             w <> [] /\ forallb (fun c => negb (isspace c)) w = true) ->
  Forall is_word (split_ws_from cur s).
Proof.
  forget_runtime.
  revert cur. induction s as [|c r IH]; intros cur Hcur.
  - destruct cur as [w|]; simpl; [|constructor].
    destruct (Hcur w eq_refl). constructor; [now apply is_word_rev | constructor].
  - simpl. destruct (isspace c) eqn:Hc.
    + destruct cur as [w|].
      * destruct (Hcur w eq_refl). constructor; [now apply is_word_rev|].
        apply IH. discriminate.
      * apply IH. discriminate.
    + apply IH. intros w E. injection E as <-. split; [discriminate|].
      simpl. rewrite Hc. simpl.
      destruct cur as [w|]; [now destruct (Hcur w eq_refl) | reflexivity].
Qed.

Lemma split_ws_word (cur : option str) (w rest : str) :
  w <> [] -> forallb (fun c => negb (isspace c)) w = true ->
  split_ws_from cur (w ++ rest)
  = split_ws_from (Some (rev w ++ pending cur)) rest.
Proof.
  revert cur. induction w as [|c w IH]; intros cur Hn Hw; [congruence|].
  simpl in Hw. apply andb_true_iff in Hw. destruct Hw as [Hc Hw].
  apply negb_true_iff in Hc. simpl. rewrite Hc.
  destruct w as [|c' w']; [reflexivity|].
  rewrite IH by (assumption || discriminate).
  simpl pending. now rewrite <- !app_assoc.
Qed.

Lemma split_ws_join (ws : list str) :
  Forall is_word ws -> split_ws (join (u " ") ws) = ws.
Proof.
  forget_runtime.
  unfold split_ws. induction 1 as [|w ws [Hn Hw] Hws IH]; [reflexivity|].
  destruct ws as [|w' ws].
  - simpl join. rewrite <- (app_nil_r w) at 1.
    rewrite split_ws_word by assumption.
    simpl. now rewrite app_nil_r, rev_involutive.
  - rewrite join_cons by discriminate.
    rewrite split_ws_word by assumption.
    change (u " " ++ join (u " ") (w' :: ws))
      with (32 :: join (u " ") (w' :: ws)).
    remember (join (u " ") (w' :: ws)) as rest eqn:E.
    simpl. rewrite IH. now rewrite app_nil_r, rev_involutive.
Qed.

(** X9: a command given to the compose layer is cut into its words at white
    space; every argument is a word (not empty, no white space), the words
    are the characters of the command other than white space in their
    order, and a command written as words separated by single spaces comes
    back as exactly these words.  A one-shot command is never cut: it is
    the single last argument after [docker-compose run --rm]. *)
Theorem compose_command_words (command : str) :
  (exists words,
      docker_cmd command true = u "docker-compose" :: words
      /\ Forall is_word words
      /\ concat words = filter (fun c => negb (isspace c)) command)
  /\ (forall ws, Forall is_word ws ->
                 docker_cmd (join (u " ") ws) true = u "docker-compose" :: ws)
  /\ (length (docker_cmd command false) = 4%nat
      /\ last (docker_cmd command false) [] = command).
Proof.
  forget_runtime.
  split; [|split].
  - exists (split_ws command). split; [reflexivity|]. split.
    + apply split_ws_words. discriminate.
    + unfold split_ws. now rewrite split_ws_concat.
  - intros ws H. unfold docker_cmd. cbn [app]. now rewrite split_ws_join.
  - split; reflexivity.
Qed.

(** X10: the project status never takes its error branch: it always shows
    the three heading lines with the project root and one Docker line,
    which says available exactly when the compose file exists and
    [docker ps] exits with code 0. *)
Theorem project_status_report (self : MCPServer) (w : World) :
  fst (run (_get_project_status self) w)
  = inr (text_content
           (join [nl]
              [u "📊 Project Status";
               u "📁 Project root: " ++ project_root self;
               [];
               u "🐳 Docker: "
                 ++ (if compose_file_found self w && docker_probe_ok w
                     then u "✅ Available" else u "❌ Not available")]))
  /\ (forall e,
         fst (run (_get_project_status self) w)
         <> inr (text_content (u "❌ Error getting project status: "
                                 ++ str_of_exn e)))
  /\ (forall argv, In argv (spawned (snd (run (_get_project_status self) w)))
                   -> argv = [u "docker"; u "ps"]).
Proof.
  unfold run, _get_project_status, try_except_Exception, try_except, bind.
  rewrite validate_run. cbn. split; [reflexivity|]. split.
  - intros e H. vm_compute in H. discriminate.
  - destruct (compose_file_found self w); cbn; intros argv H;
      [destruct H as [<-|[]]; reflexivity | contradiction].
Qed.

(** ** Further properties of the status probe *)

(** X11: the authentication check never raises.  It answers authenticated
    exactly when [gh --version] and [gh auth status] both start and exit
    with code 0; it starts nothing else, and it reads the environment only
    after [gh auth status] has exited with another code, [GH_TOKEN] only
    when [GITHUB_TOKEN] is unset or empty. *)
Theorem github_auth_check (w : World) :
  exists a,
    fst (run _check_github_auth w) = inr a
    /\ (authenticated a = true <-> gh_ready w = true)
    /\ (forall argv,
           In argv (spawned (snd (run _check_github_auth w))) ->
           argv = [u "gh"; u "--version"]
           \/ argv = [u "gh"; u "auth"; u "status"])
    /\ (forall name,
           In (EvGetenv name) (snd (run _check_github_auth w)) ->
           (exists q, spawn w [u "gh"; u "auth"; u "status"] = inr q
                      /\ returncode q <> 0%Z)
           /\ (name = u "GITHUB_TOKEN"
               \/ (name = u "GH_TOKEN"
                   /\ opt_truthy (environ w (u "GITHUB_TOKEN")) = false))).
Proof.
  unfold run, gh_ready, _check_github_auth, try_except_Exception, try_except,
    bind, create_subprocess_exec, communicate, getenv, ret.
  destruct (spawn w [u "gh"; u "--version"]) as [e|p].
  { eexists. split; [reflexivity|]. cbn.
    split; [split; discriminate|]. split.
    - intros argv [<-|[]]. now left.
    - intros name [H|[]]. discriminate. }
  destruct (returncode p =? 0)%Z; cbn.
  2:{ eexists. split; [reflexivity|]. cbn.
      split; [split; discriminate|]. split.
      - intros argv [<-|[]]. now left.
      - intros name [H|[]]. discriminate. }
  destruct (spawn w [u "gh"; u "auth"; u "status"]) as [e|q].
  { eexists. split; [reflexivity|]. cbn.
    split; [split; discriminate|]. split.
    - intros argv [<-|[<-|[]]]; auto.
    - intros name [H|[H|[]]]; discriminate. }
  destruct (returncode q =? 0)%Z eqn:Hq; cbn.
  { eexists. split; [reflexivity|]. cbn.
    split; [split; reflexivity|]. split.
    - intros argv [<-|[<-|[]]]; auto.
    - intros name [H|[H|[]]]; discriminate. }
  apply Z.eqb_neq in Hq.
  destruct (opt_truthy (environ w (u "GITHUB_TOKEN"))) eqn:E1; cbn.
  { eexists. split; [reflexivity|]. cbn.
    split; [split; discriminate|]. split.
    - intros argv [<-|[<-|[]]]; auto.
    - intros name [H|[H|[H|[]]]]; try discriminate.
      injection H as <-. split; [now exists q | now left]. }
  destruct (opt_truthy (environ w (u "GH_TOKEN"))) eqn:E2; cbn;
    (eexists; split; [reflexivity|]; cbn;
     split; [split; discriminate|]; split;
     [ intros argv [<-|[<-|[]]]; auto
     | intros name [H|[H|[H|[H|[]]]]]; try discriminate;
       injection H as <-; (split; [now exists q | auto]) ]).
Qed.

(** X12: when [gh] is installed but logged out, the guidance depends on the
    two token variables together: if either [GITHUB_TOKEN] or [GH_TOKEN] is
    set and not empty, the steps name [GITHUB_TOKEN] and pipe it to
    [gh auth login] (also when only [GH_TOKEN] is set); otherwise they tell
    to set [GITHUB_TOKEN].  The token requirements follow in both cases. *)
Theorem logged_out_guidance (w : World) (p q : process) :
  spawn w [u "gh"; u "--version"] = inr p ->
  returncode p = 0%Z ->
  spawn w [u "gh"; u "auth"; u "status"] = inr q ->
  returncode q <> 0%Z ->
  fst (run _check_github_auth w)
  = inr {| authenticated := false;
           messages :=
             [u "❌ GitHub CLI not authenticated"; u "🔧 Container setup:"]
               ++ (if opt_truthy (environ w (u "GITHUB_TOKEN"))
                      || opt_truthy (environ w (u "GH_TOKEN"))
                   then
                     [u "  1. GITHUB_TOKEN found in environment";
                      u "  2. Run: echo $GITHUB_TOKEN | gh auth login --with-token"]
                   else
                     [u "  1. Set GITHUB_TOKEN environment variable";
                      u "  2. Run: docker-compose up -d mcp-server";
                      u "  3. Or run: ./scripts/setup-github-auth.sh"])
               ++ [[];
                   u "🔑 Token requirements for private repos:";
                   u "  - repo (full control of private repositories)";
                   u "  - workflow (update GitHub Action workflows)";
                   u "  - read:org (read org and team membership)"] |}.
Proof.
  intros Hp Hrp Hq Hrq. apply Z.eqb_neq in Hrq.
  unfold run, _check_github_auth, try_except_Exception, try_except,
    bind, create_subprocess_exec, communicate, getenv, ret.
  rewrite Hp, Hrp. cbn. rewrite Hq, Hrq. cbn.
  destruct (opt_truthy (environ w (u "GITHUB_TOKEN"))); cbn; [reflexivity|].
  destruct (opt_truthy (environ w (u "GH_TOKEN"))); reflexivity.
Qed.

Lemma probe_ready_run (self : MCPServer) (w : World) (limit : Z)
    (workflow_name : option str) :
  gh_ready w = true ->
  fst (run (_check_workflow_runs self limit workflow_name) w)
  = inr (run_list_report self w limit workflow_name).
Proof.
  intros Hr. unfold run, run_list_report, run_list_attempt.
  unfold _check_workflow_runs, try_except_Exception, try_except, bind.
  rewrite (auth_ready_run w [] Hr).
  change (match workflow_name with
          | Some name => _
          | None => _
          end) with (gh_run_list_cmd limit workflow_name).
  unfold create_subprocess_exec, communicate, ret, lift. cbn.
  fold probe_header.
  destruct (spawn w (gh_run_list_cmd limit workflow_name)) as [e|p]; cbn.
  { destruct e; reflexivity. }
  destruct (returncode p =? 0)%Z; cbn.
  2:{ destruct (_ || _); cbn; [reflexivity|].
      destruct (decode (stderr_data p)) as [e|err]; cbn;
        [destruct e|]; reflexivity. }
  destruct (decode (stdout_data p)) as [e|doc]; cbn;
    [destruct e; reflexivity|].
  destruct (json_loads doc) as [e|runs]; cbn; [destruct e; reflexivity|].
  destruct (truthy runs); cbn; [|reflexivity].
  destruct (len runs) as [e|n]; cbn; [destruct e; reflexivity|].
  destruct (iterate runs) as [e|items]; cbn; [destruct e; reflexivity|].
  destruct (for_each_run items _) as [e|o]; cbn; [destruct e|]; reflexivity.
Qed.

(** X13: whatever the world does, the status probe returns one text item
    and raises nothing. *)
Theorem check_workflow_runs_always_answers (self : MCPServer) (w : World)
    (limit : Z) (workflow_name : option str) :
  exists t,
    fst (run (_check_workflow_runs self limit workflow_name) w)
    = inr [{| type := u "text"; text := t |}].
Proof.
  destruct (gh_ready w) eqn:Hr.
  - rewrite (probe_ready_run self w limit workflow_name Hr).
    unfold run_list_report, text_content.
    destruct (run_list_attempt self w limit workflow_name) as [e|answer] eqn:E.
    + destruct e; eexists; reflexivity.
    + revert E. unfold run_list_attempt, text_content.
      repeat match goal with
             | |- context [match ?x with _ => _ end] =>
               lazymatch x with
               | context [match _ with _ => _ end] => fail
               | context [if _ then _ else _] => fail
               | _ => destruct x
               end
             end;
        intros E; try discriminate; injection E as <-;
        eexists; reflexivity.
  - destruct (auth_not_ready_run w [] Hr) as (guidance & more & E & _).
    unfold run, _check_workflow_runs, try_except_Exception, try_except, bind.
    rewrite E. cbn. eexists. reflexivity.
Qed.

(** X14: when the run-list query exits with a code other than 0, stdout is
    not looked at.  If stderr contains the bytes of "not found" or of
    "No workflows found", the report says that no workflow runs were found
    and suggests to check whether Actions are enabled; otherwise it shows
    the decoded stderr after "Error getting workflow runs". *)
Theorem run_list_failure_report (self : MCPServer) (w : World) (limit : Z)
    (workflow_name : option str) (p : process) :
  gh_ready w = true ->
  spawn w (gh_run_list_cmd limit workflow_name) = inr p ->
  returncode p <> 0%Z ->
  (bytes_contains (b_lit "not found") (stderr_data p)
   || bytes_contains (b_lit "No workflows found") (stderr_data p) = true ->
   fst (run (_check_workflow_runs self limit workflow_name) w)
   = inr (text_content
            (join [nl]
               (probe_header
                  ++ [u "ℹ️  No workflow runs found";
                      u "💡 Check if this repository has GitHub Actions enabled"]))))
  /\ (forall err,
         bytes_contains (b_lit "not found") (stderr_data p)
         || bytes_contains (b_lit "No workflows found") (stderr_data p)
         = false ->
         decode (stderr_data p) = inr err ->
         fst (run (_check_workflow_runs self limit workflow_name) w)
         = inr (text_content
                  (join [nl]
                     (probe_header
                        ++ [u "❌ Error getting workflow runs: " ++ err])))).
Proof.
  intros Hr Hs Hrc. apply Z.eqb_neq in Hrc.
  rewrite (probe_ready_run self w limit workflow_name Hr).
  unfold run_list_report, run_list_attempt. rewrite Hs, Hrc. cbn [negb].
  split.
  - intros ->. reflexivity.
  - intros err -> ->. reflexivity.
Qed.

(** X15: any answer of the run-list query that Python takes for false, not
    only the empty list but also [null], [false], [0], the empty string and
    the empty object, is reported as no workflow runs found. *)
Theorem falsy_run_list_report (self : MCPServer) (w : World) (limit : Z)
    (workflow_name : option str) (p : process) (doc : str) (runs : json) :
  gh_ready w = true ->
  spawn w (gh_run_list_cmd limit workflow_name) = inr p ->
  returncode p = 0%Z ->
  decode (stdout_data p) = inr doc ->
  json_loads doc = inr runs ->
  In runs [JList []; JNull; JBool false; JInt 0; JStr []; JDict []] ->
  fst (run (_check_workflow_runs self limit workflow_name) w)
  = inr (text_content
           (join [nl] (probe_header ++ [u "ℹ️  No workflow runs found"]))).
Proof.
  intros Hr Hs Hrc Hdoc Hjson Hin.
  rewrite (probe_ready_run self w limit workflow_name Hr).
  unfold run_list_report, run_list_attempt. rewrite Hs, Hrc, Hdoc, Hjson.
  cbn [In] in Hin.
  destruct Hin as [<-|[<-|[<-|[<-|[<-|[<-|[]]]]]]]; reflexivity.
Qed.

Lemma workflow_run_step_renderable (acc : list str) (run : json) :
  renderable run -> workflow_run_step acc run = inr (acc ++ run_block run).
Proof.
  intros (d & c & -> & E). unfold workflow_run_step, run_block.
  rewrite E. destruct (truthy _); now rewrite <- !app_assoc.
Qed.

Lemma workflow_run_step_inr (acc o : list str) (run : json) :
  workflow_run_step acc run = inr o -> renderable run.
Proof.
  forget_runtime.
  unfold workflow_run_step. destruct run; try discriminate.
  destruct (dict_get d (u "createdAt") (JStr [])) eqn:E; try discriminate;
    try (destruct slice_hashable; discriminate).
  intros _. now exists d, s.
Qed.

Lemma for_each_run_renderable (runs : list json) (acc : list str) :
  Forall renderable runs ->
  for_each_run runs acc = inr (acc ++ concat (map run_block runs)).
Proof.
  intros H. revert acc. induction H as [|run runs Hr _ IH]; intros acc.
  - simpl. now rewrite app_nil_r.
  - simpl. rewrite (workflow_run_step_renderable acc run Hr), IH.
    now rewrite <- app_assoc.
Qed.

Lemma for_each_run_aborts (runs : list json) (acc : list str) :
  Exists (fun run => ~ renderable run) runs ->
  exists e, for_each_run runs acc = inl e.
Proof.
  intros H. revert acc. induction runs as [|run runs IH]; intros acc.
  - inversion H.
  - simpl. destruct (workflow_run_step acc run) as [e|o] eqn:E.
    + now exists e.
    + apply workflow_run_step_inr in E.
      inversion H as [? ? Hn | ? ? Ht]; subst; [contradiction|].
      now apply IH.
Qed.

Lemma run_block_shape (run : json) :
  renderable run ->
  (length (run_block run) = 5%nat \/ length (run_block run) = 6%nat)
  /\ last (run_block run) (u "x") = [].
Proof.
  intros (d & c & -> & E). unfold run_block.
  destruct (truthy _); split; auto.
Qed.

(** X16: when the run-list query answers with a non-empty list of records
    that are objects whose [createdAt], if present, is a string, the report
    is the heading, a line with the number of records, an empty line, and
    then the blocks of the records in their order; a block has five lines,
    or six with the URL, and ends with an empty line. *)
Theorem well_formed_runs_report (self : MCPServer) (w : World) (limit : Z)
    (workflow_name : option str) (p : process) (doc : str)
    (runs : list json) :
  gh_ready w = true ->
  spawn w (gh_run_list_cmd limit workflow_name) = inr p ->
  returncode p = 0%Z ->
  decode (stdout_data p) = inr doc ->
  json_loads doc = inr (JList runs) ->
  runs <> [] ->
  Forall renderable runs ->
  fst (run (_check_workflow_runs self limit workflow_name) w)
  = inr (text_content
           (join [nl]
              (probe_header
                 ++ [u "📊 Latest " ++ str_of_N (N.of_nat (length runs))
                       ++ u " Workflow Runs:"; []]
                 ++ concat (map run_block runs))))
  /\ Forall (fun run =>
               (length (run_block run) = 5%nat
                \/ length (run_block run) = 6%nat)
               /\ last (run_block run) (u "x") = [])
            runs.
Proof.
  intros Hr Hs Hrc Hdoc Hjson Hne Hall. split.
  - rewrite (probe_ready_run self w limit workflow_name Hr).
    unfold run_list_report, run_list_attempt.
    rewrite Hs, Hrc, Hdoc, Hjson.
    destruct runs as [|r0 rs]; [congruence|].
    cbn [negb truthy is_nil Z.eqb len iterate].
    rewrite (for_each_run_renderable (r0 :: rs) _ Hall).
    now rewrite <- app_assoc.
  - apply Forall_forall. intros r Hin. apply run_block_shape.
    rewrite Forall_forall in Hall. now apply Hall.
Qed.

(** X17: one record that cannot be rendered spoils the whole report.  When
    the answer of the run-list query is a list in which some record is not
    an object, or has a [createdAt] that is not a string, or is not a list
    at all (an error object, a number, a string), the probe returns only
    the line "Error checking workflow runs" with the text of the exception:
    no heading and none of the other records.  The exception is an
    [AttributeError], a [TypeError] or, for a [createdAt] that is an object
    where slices can be hashed, a [KeyError]. *)
Theorem malformed_run_aborts_report (self : MCPServer) (w : World)
    (limit : Z) (workflow_name : option str) (p : process) (doc : str)
    (runs : json) :
  gh_ready w = true ->
  spawn w (gh_run_list_cmd limit workflow_name) = inr p ->
  returncode p = 0%Z ->
  decode (stdout_data p) = inr doc ->
  json_loads doc = inr runs ->
  truthy runs = true ->
  (forall l, runs = JList l -> Exists (fun r => ~ renderable r) l) ->
  exists e,
    fst (run (_check_workflow_runs self limit workflow_name) w)
    = inr (text_content (u "❌ Error checking workflow runs: "
                           ++ str_of_exn e))
    /\ ((exists obj a, e = AttributeError obj a)
        \/ (exists obj o, e = TypeError obj o)
        \/ (slice_hashable = true /\ exists obj k, e = KeyError obj k)).
Proof.
  intros Hr Hs Hrc Hdoc Hjson Ht Hbad.
  rewrite (probe_ready_run self w limit workflow_name Hr).
  unfold run_list_report, run_list_attempt.
  rewrite Hs, Hrc, Hdoc, Hjson, Ht. cbn [negb Z.eqb].
  assert (Hstep : forall acc run e,
             workflow_run_step acc run = inl e ->
             (exists obj a, e = AttributeError obj a)
             \/ (exists obj o, e = TypeError obj o)
             \/ (slice_hashable = true /\ exists obj k, e = KeyError obj k)).
  { clear. intros acc run e. unfold workflow_run_step.
    destruct run; try (intros H; injection H as <-; eauto).
    destruct (dict_get d (u "createdAt") (JStr [])); intros H;
      try discriminate;
      try (destruct slice_hashable; injection H as <-; eauto 6; fail);
      injection H as <-; eauto. }
  assert (Hloop : forall items acc e,
             for_each_run items acc = inl e ->
             (exists obj a, e = AttributeError obj a)
             \/ (exists obj o, e = TypeError obj o)
             \/ (slice_hashable = true /\ exists obj k, e = KeyError obj k)).
  { intros items. induction items as [|r items IH]; intros acc e;
      [discriminate|].
    simpl. destruct (workflow_run_step acc r) as [e'|o] eqn:E.
    - intros H. injection H as <-. now apply Hstep in E.
    - apply IH. }
  destruct runs; try discriminate Ht; cbn [len iterate].
  - eexists. split; [reflexivity | right; left; eauto].
  - eexists. split; [reflexivity | right; left; eauto].
  - eexists. split; [reflexivity | right; left; eauto].
  - eexists. split; [reflexivity | right; left; eauto].
  - destruct s as [|c s]; [discriminate|]. cbn [map for_each_run].
    cbn. eexists. split; [reflexivity | left; eauto].
  - destruct (for_each_run_aborts l
                (probe_header
                   ++ [u "📊 Latest " ++ str_of_N (N.of_nat (length l))
                         ++ u " Workflow Runs:"; []])
                (Hbad l eq_refl)) as [e E].
    rewrite E. pose proof (Hloop _ _ _ E) as K. destruct e;
      try (exfalso;
           destruct K as [(? & ? & K)|[(? & ? & K)|(_ & ? & ? & K)]];
           discriminate);
      eexists; (split; [reflexivity | assumption]).
  - destruct d as [|[k v] d]; [discriminate|]. cbn [map for_each_run].
    cbn. eexists. split; [reflexivity | left; eauto].
Qed.

(** X18: when [gh] has passed both checks but the run-list query cannot be
    started, a [FileNotFoundError] (the executable has gone, or the project
    root given as working directory does not exist) is reported under the
    heading as "GitHub CLI (gh) not found" with the install hint; any other
    exception of the launch is reported as "Error checking workflow runs"
    without the heading. *)
Theorem run_list_launch_failure (self : MCPServer) (w : World) (limit : Z)
    (workflow_name : option str) (e : exn) :
  gh_ready w = true ->
  spawn w (gh_run_list_cmd limit workflow_name) = inl e ->
  fst (run (_check_workflow_runs self limit workflow_name) w)
  = inr (match e with
         | FileNotFoundError _ =>
           text_content
             (join [nl]
                (probe_header
                   ++ [u "❌ GitHub CLI (gh) not found";
                       u "💡 Install GitHub CLI: https://cli.github.com/";
                       [];
                       u "🔧 Alternative: Check workflows manually";
                       u "   Visit: https://github.com/your-repo/actions"]))
         | _ =>
           text_content (u "❌ Error checking workflow runs: "
                           ++ str_of_exn e)
         end).
Proof.
  intros Hr Hs.
  rewrite (probe_ready_run self w limit workflow_name Hr).
  unfold run_list_report, run_list_attempt. rewrite Hs. reflexivity.
Qed.

Lemma str_eqb_eq (a b : str) : str_eqb a b = true <-> a = b.
Proof.
  revert b. induction a as [|x a IH]; intros [|y b]; simpl;
    try (split; [discriminate | congruence]); [tauto|].
  rewrite andb_true_iff, N.eqb_eq, IH. split.
  - intros [-> ->]. reflexivity.
  - intros H. injection H as -> ->. auto.
Qed.

Lemma eq_str_eq (v : json) (s : str) : eq_str v s = true <-> v = JStr s.
Proof.
  forget_runtime.
  destruct v; simpl; try (split; [discriminate | congruence]).
  rewrite str_eqb_eq. split; congruence.
Qed.

Lemma eq_str_dec (v : json) (s : str) :
  (v = JStr s /\ eq_str v s = true) \/ (v <> JStr s /\ eq_str v s = false).
Proof.
  forget_runtime.
  destruct (eq_str v s) eqn:E.
  - left. split; [now apply eq_str_eq | reflexivity].
  - right. split; [|reflexivity]. intros F. apply eq_str_eq in F. congruence.
Qed.

Ltac icon_case :=
  repeat match goal with H : _ /\ _ |- _ => destruct H end;
  repeat split;
  try reflexivity; try assumption; try congruence;
  try (exfalso;
       match goal with
       | H : _ = _ |- _ => vm_compute in H; discriminate H
       end);
  try (let F := fresh in intros F; vm_compute in F; discriminate F).

(** X19: the icon of a run tells its state: the check mark only for a run
    that completed with success, the cross only for one that completed with
    failure, the no-entry sign only for one that was cancelled, the warning
    sign for any other completed run; the arrows only for a run in
    progress, the hourglass only for a queued one, and the question mark
    for every other status, a missing one included. *)
Theorem status_icon_meaning (status conclusion : json) :
  (status_icon_of status conclusion = u "✅"
   <-> status = JStr (u "completed") /\ conclusion = JStr (u "success"))
  /\ (status_icon_of status conclusion = u "❌"
      <-> status = JStr (u "completed") /\ conclusion = JStr (u "failure"))
  /\ (status_icon_of status conclusion = u "🚫"
      <-> status = JStr (u "completed")
          /\ conclusion = JStr (u "cancelled"))
  /\ (status_icon_of status conclusion = u "⚠️"
      <-> status = JStr (u "completed")
          /\ conclusion <> JStr (u "success")
          /\ conclusion <> JStr (u "failure")
          /\ conclusion <> JStr (u "cancelled"))
  /\ (status_icon_of status conclusion = u "🔄"
      <-> status = JStr (u "in_progress"))
  /\ (status_icon_of status conclusion = u "⏳"
      <-> status = JStr (u "queued"))
  /\ (status_icon_of status conclusion = u "❓"
      <-> status <> JStr (u "completed")
          /\ status <> JStr (u "in_progress")
          /\ status <> JStr (u "queued")).
Proof.
  forget_runtime.
  unfold status_icon_of.
  destruct (eq_str_dec status (u "completed")) as [[-> R]|[N1 R]]; rewrite R.
  - destruct (eq_str_dec conclusion (u "success")) as [[-> K]|[M1 K]];
      rewrite K; [repeat split; intros; icon_case|].
    destruct (eq_str_dec conclusion (u "failure")) as [[-> K']|[M2 K']];
      rewrite K'; [repeat split; intros; icon_case|].
    destruct (eq_str_dec conclusion (u "cancelled")) as [[-> K'']|[M3 K'']];
      rewrite K''; repeat split; intros; icon_case.
  - destruct (eq_str_dec status (u "in_progress")) as [[-> R']|[N2 R']];
      rewrite R'; [repeat split; intros; icon_case|].
    destruct (eq_str_dec status (u "queued")) as [[-> R'']|[N3 R'']];
      rewrite R''; repeat split; intros; icon_case.
Qed.

Lemma replace_char_absent (old new : char) (s : str) :
  ~ In old s -> replace_char old new s = s.
Proof.
  forget_runtime.
  intros H. unfold replace_char. rewrite <- (map_id s) at 2.
  apply map_ext_in. intros c Hc.
  destruct (N.eqb_spec c old) as [->|]; [contradiction | reflexivity].
Qed.

Lemma replace_char_app (old new : char) (a b : str) :
  replace_char old new (a ++ b)
  = replace_char old new a ++ replace_char old new b.
Proof. apply map_app. Qed.

Lemma iso_time_shown (date time zone : str) :
  length date = 10%nat -> length time = 8%nat ->
  ~ In 84 date -> ~ In 84 time ->
  replace_char 84 32 (firstn 19 (date ++ [84] ++ time ++ zone))
  = date ++ [32] ++ time.
Proof.
  forget_runtime.
  intros Hd Ht Nd Nt.
  replace (date ++ [84] ++ time ++ zone)
    with ((date ++ [84] ++ time) ++ zone) by now rewrite <- !app_assoc.
  assert (L : length (date ++ [84] ++ time) = 19%nat).
  { unfold str, char in *. rewrite !length_app, Hd, Ht. reflexivity. }
  rewrite firstn_app, L, Nat.sub_diag.
  rewrite firstn_all2 by (rewrite L; apply Nat.le_refl).
  cbn [firstn]. rewrite app_nil_r, !replace_char_app.
  rewrite (replace_char_absent 84 32 date Nd).
  rewrite (replace_char_absent 84 32 time Nt). reflexivity.
Qed.

(** X20: a creation time in the ISO form, ten characters of date, the
    letter T, eight characters of time and anything after (the zone), is
    shown on the third line of the block of its run as the date, a space
    and the time: the zone is cut off and T replaced. *)
Theorem created_time_shown (acc : list str) (d : list (str * json))
    (date time zone : str) :
  dict_get d (u "createdAt") (JStr []) = JStr (date ++ [84] ++ time ++ zone) ->
  length date = 10%nat -> length time = 8%nat ->
  ~ In 84 date -> ~ In 84 time ->
  exists o,
    workflow_run_step acc (JDict d) = inr o
    /\ nth_error o (length acc + 2)
       = Some (u "   Created: " ++ date ++ [32] ++ time).
Proof.
  intros E Hd Ht Nd Nt.
  assert (R : renderable (JDict d))
    by (now exists d, (date ++ [84] ++ time ++ zone)).
  rewrite (workflow_run_step_renderable acc (JDict d) R).
  eexists. split; [reflexivity|].
  rewrite nth_error_app2 by lia.
  replace (length acc + 2 - length acc)%nat with 2%nat by lia.
  unfold run_block. rewrite E.
  rewrite (iso_time_shown date time zone Hd Ht Nd Nt). reflexivity.
Qed.

(** ** Properties of the workflow validator *)

Section WorkflowProperties.

Variable fs : WorkflowFiles.

Lemma file_step_acc (acc : list str) (b : bool) (f : Path) :
  file_step fs (acc, b) f = (acc ++ file_lines fs f, b && file_valid fs f).
Proof.
  unfold file_lines, file_valid, file_step. cbn [fst snd].
  destruct (read_text fs f) as [e|content]; cbn;
    [now rewrite andb_false_r|].
  destruct (safe_load fs content) as [v|m|e]; cbn;
    try now rewrite andb_false_r.
  destruct (structure_errors fs v content) as [[v' op]|[|err errs]]; cbn;
    rewrite ?andb_false_r, ?andb_true_r, <- ?app_assoc; reflexivity.
Qed.

Lemma fold_file_step (files : list Path) (acc : list str) (b : bool) :
  fold_left (file_step fs) files (acc, b)
  = (acc ++ concat (map (file_lines fs) files),
     b && forallb (file_valid fs) files).
Proof.
  revert acc b. induction files as [|f files IH]; intros acc b; simpl.
  - now rewrite app_nil_r, andb_true_r.
  - rewrite file_step_acc, IH. now rewrite <- app_assoc, andb_assoc.
Qed.

(** X21: whatever the world, the file system and the YAML reader do, the
    workflow validator returns one text item and raises nothing. *)
Theorem validate_workflow_yaml_always_answers (self : MCPServer) (w : World)
    (workflow_file : option str) :
  exists t,
    fst (run (_validate_workflow_yaml fs self workflow_file) w)
    = inr [{| type := u "text"; text := t |}].
Proof.
  unfold run, _validate_workflow_yaml, try_except_Exception, try_except,
    bind, Path_exists, lift, ret, text_content.
  destruct (path_exists w [project_root self; u ".github"; u "workflows"])
    as [e|[|]]; cbn; try (eexists; reflexivity).
  destruct (opt_truthy workflow_file); cbn.
  - destruct (path_exists w _) as [e|[|]]; cbn; eexists; reflexivity.
  - destruct (glob fs _ (u "*.yml")) as [e|l1]; cbn; [eexists; reflexivity|].
    destruct (glob fs _ (u "*.yaml")) as [e|l2]; cbn; [eexists; reflexivity|].
    destruct (l1 ++ l2); cbn; eexists; reflexivity.
Qed.

(** X22: when the directory exists and no file is named, the files are
    those matching [*.yml] followed by those matching [*.yaml]; the report
    is the heading, the number of files, the lines of each file in that
    order, the verdict and the helpful commands.  The verdict says that all
    files are valid exactly when every file could be read, was parsed and
    left the list of findings empty, and then each file has the one line
    that calls it valid. *)
Theorem validation_report_and_verdict (self : MCPServer) (w : World)
    (yml_files yaml_files : list Path) :
  path_exists w [project_root self; u ".github"; u "workflows"] = inr true ->
  glob fs [project_root self; u ".github"; u "workflows"] (u "*.yml")
  = inr yml_files ->
  glob fs [project_root self; u ".github"; u "workflows"] (u "*.yaml")
  = inr yaml_files ->
  yml_files ++ yaml_files <> [] ->
  let files := yml_files ++ yaml_files in
  fst (run (_validate_workflow_yaml fs self None) w)
  = inr (text_content
           (join [nl]
              (validation_header
                 ++ [u "📋 Validating " ++ str_of_N (N.of_nat (length files))
                       ++ u " workflow file(s):"; []]
                 ++ concat (map (file_lines fs) files)
                 ++ [[];
                     if forallb (file_valid fs) files
                     then u "🎉 All workflow files are valid!"
                     else u "⚠️  Some workflow files have issues that need attention"]
                 ++ helpful_commands)))
  /\ (forall f,
         file_valid fs f = true
         <-> exists content v,
               read_text fs f = inr content
               /\ safe_load fs content = Parsed v
               /\ structure_errors fs v content = inr [])
  /\ (forall f,
         file_valid fs f = true ->
         file_lines fs f = [u "✅ " ++ path_name fs f ++ u ": Valid"]).
Proof.
  intros Hdir Hyml Hyaml Hne files. split; [|split].
  - match goal with |- _ = ?r => remember r as expected eqn:Hexp end.
    unfold run, _validate_workflow_yaml, try_except_Exception, try_except,
      bind, Path_exists, lift, ret.
    rewrite Hdir. cbn. rewrite Hyml. cbn. rewrite Hyaml. cbn.
    fold files. fold files in Hne. clearbody files.
    destruct files as [|f0 rest]; [congruence|].
    cbn [is_nil]. rewrite fold_file_step. cbn [fst snd andb].
    subst expected. unfold validation_header, helpful_commands.
    destruct (forallb (file_valid fs) (f0 :: rest));
      rewrite <- !app_assoc; reflexivity.
  - intros f. unfold file_valid, file_step. cbn [fst snd]. split.
    + destruct (read_text fs f) as [e|content] eqn:R; cbn; [discriminate|].
      destruct (safe_load fs content) as [v|m|e] eqn:L; cbn;
        try discriminate.
      destruct (structure_errors fs v content)
        as [[v' op]|[|err errs]] eqn:E; cbn; try discriminate.
      intros _. exists content, v. auto.
    + intros (content & v & -> & Hl & Hs). rewrite Hl, Hs. reflexivity.
  - intros f. unfold file_valid, file_lines, file_step. cbn [fst snd].
    destruct (read_text fs f) as [e|content]; cbn; [discriminate|].
    destruct (safe_load fs content) as [v|m|e]; cbn; try discriminate.
    destruct (structure_errors fs v content)
      as [[v' op]|[|err errs]]; cbn; try discriminate.
    reflexivity.
Qed.

Lemma job_step_acc (acc : list str) (job : yaml * yaml) :
  job_step fs acc job = acc ++ job_step fs [] job.
Proof.
  forget_runtime.
  unfold job_step. destruct (snd job); try reflexivity.
  destruct (dict_has d (u "runs-on")); cbn [negb app];
    destruct (dict_has d (u "container")); rewrite ?app_nil_r;
    try reflexivity;
    destruct (dict_item d (u "container")) as [[]|]; rewrite ?app_nil_r;
    try reflexivity;
    destruct (dict_has _ (u "image")); cbn [negb];
    rewrite ?app_nil_r, <- ?app_assoc; reflexivity.
Qed.

Lemma fold_job_step (jobs : list (yaml * yaml)) (acc : list str) :
  fold_left (job_step fs) jobs acc
  = acc ++ concat (map (job_step fs []) jobs).
Proof.
  revert acc. induction jobs as [|j jobs IH]; intros acc; simpl.
  - now rewrite app_nil_r.
  - rewrite IH, job_step_acc. now rewrite <- app_assoc.
Qed.

Lemma dict_has_item (d : list (yaml * yaml)) (key : str) :
  dict_has d key = true <-> exists v, dict_item d key = Some v.
Proof.
  forget_runtime.
  induction d as [|[k v] d IH]; simpl.
  - split; [discriminate | intros [v H]; discriminate].
  - destruct (is_ystr k key); simpl; [split; eauto | exact IH].
Qed.

Lemma dict_lacks_item (d : list (yaml * yaml)) (key : str) :
  dict_has d key = false -> dict_item d key = None.
Proof.
  forget_runtime.
  intros H. destruct (dict_item d key) as [v|] eqn:E; [|reflexivity].
  assert (K : dict_has d key = true) by (apply dict_has_item; eauto).
  congruence.
Qed.

Lemma job_step_nil_iff (job : yaml * yaml) :
  job_step fs [] job = [] <-> job_ok job.
Proof.
  forget_runtime.
  unfold job_step, job_ok. destruct (snd job) as [| | | | |jd| |];
    try (split; [intros H; destruct (u "Job '" ++ _); discriminate
                | intros (jd & H & _); discriminate]).
  split.
  - intros H. exists jd. split; [reflexivity|].
    destruct (dict_has jd (u "runs-on")) eqn:R; cbn [negb app] in H.
    + split; [reflexivity|]. intros c Hc.
      assert (K : dict_has jd (u "container") = true)
        by (apply dict_has_item; eauto).
      rewrite K, Hc in H.
      destruct (dict_has c (u "image")); [reflexivity|].
      cbn in H. destruct (u "Job '" ++ _); discriminate.
    + exfalso. destruct (dict_has jd (u "container"));
        [destruct (dict_item jd (u "container")) as [[]|];
         try destruct (dict_has _ (u "image"))|];
        cbn in H; destruct (u "Job '" ++ _); discriminate.
  - intros (jd' & E & R & C). injection E as <-. rewrite R. cbn [negb].
    destruct (dict_has jd (u "container")); [|reflexivity].
    destruct (dict_item jd (u "container")) as [[]|] eqn:Hc; try reflexivity.
    now rewrite (C _ eq_refl).
Qed.

Lemma concat_nil_iff {A : Type} (ls : list (list A)) :
  concat ls = [] <-> Forall (fun l => l = []) ls.
Proof.
  induction ls as [|l ls IH]; simpl.
  - split; constructor.
  - split.
    + intros H. apply app_eq_nil in H. destruct H as [-> H].
      constructor; [reflexivity | now apply IH].
    + intros H. inversion H; subst. simpl. now apply IH.
Qed.

(** The findings on a mapping, in the three groups the code adds them. *)
Lemma mapping_findings (d : list (yaml * yaml)) (content : str) :
  structure_errors fs (YDict d) content
  = inr ((if dict_has d (u "on") then []
          else [u "Missing 'on' trigger definition"])
           ++ match dict_item d (u "jobs") with
              | Some (YDict jobs) => concat (map (job_step fs []) jobs)
              | Some _ => [u "'jobs' must be a dictionary"]
              | None => [u "Missing 'jobs' definition"]
              end
           ++ (if contains (u "runs-on: self-hosted") (lower content)
                  && negb (contains (u "container:") (lower content))
               then [u "Self-hosted runner without container specification"]
               else [])).
Proof.
  unfold structure_errors. cbn [yaml_contains].
  destruct (dict_has d (u "on")); cbn [negb];
    destruct (dict_has d (u "jobs")) eqn:J.
  1,3: apply dict_has_item in J; destruct J as [v J]; rewrite J; cbn [negb];
    destruct v; cbn -[fold_left job_step]; rewrite ?fold_job_step;
    destruct (_ && _); cbn [app]; rewrite ?app_nil_r, <- ?app_assoc;
    reflexivity.
  1,2: rewrite (dict_lacks_item d (u "jobs") J); cbn [negb];
    destruct (_ && _); cbn [app]; rewrite ?app_nil_r, <- ?app_assoc;
    reflexivity.
Qed.

(** X23: on a document that is a mapping the checks never fail with an
    exception, and they find nothing exactly when the mapping has the
    string key [on], its [jobs] is a mapping in which every job is a
    mapping with [runs-on] whose [container], when a mapping, has [image],
    and the lower-cased text does not have "runs-on: self-hosted" without
    "container:".  A mapping without the string key [on], such as one
    whose trigger key was read as the boolean true, is reported as missing
    the trigger definition. *)
Theorem mapping_structure_check (d : list (yaml * yaml)) (content : str) :
  exists findings,
    structure_errors fs (YDict d) content = inr findings
    /\ (findings = []
        <-> dict_has d (u "on") = true
            /\ (exists jobs,
                   dict_item d (u "jobs") = Some (YDict jobs)
                   /\ Forall job_ok jobs)
            /\ (contains (u "runs-on: self-hosted") (lower content) = true
                -> contains (u "container:") (lower content) = true))
    /\ (dict_has d (u "on") = false ->
        In (u "Missing 'on' trigger definition") findings)
    /\ (contains (u "runs-on: self-hosted") (lower content) = true ->
        contains (u "container:") (lower content) = false ->
        In (u "Self-hosted runner without container specification")
           findings).
Proof.
  eexists. split; [apply mapping_findings|]. split; [|split].
  - split.
    + intros H. apply app_eq_nil in H. destruct H as [H1 H].
      apply app_eq_nil in H. destruct H as [H2 H3].
      split; [destruct (dict_has d (u "on")); [reflexivity | discriminate]|].
      split.
      * destruct (dict_item d (u "jobs")) as [[]|]; try discriminate.
        eexists. split; [reflexivity|].
        apply concat_nil_iff in H2. rewrite Forall_map in H2.
        eapply Forall_impl; [|exact H2].
        intros j Hj. now apply job_step_nil_iff.
      * intros S. rewrite S in H3.
        destruct (contains (u "container:") (lower content));
          [reflexivity | discriminate].
    + intros (Hon & (jobs & Hj & Hall) & Htext). rewrite Hon, Hj.
      cbn [app].
      assert (E : concat (map (job_step fs []) jobs) = []).
      { apply concat_nil_iff. rewrite Forall_map.
        eapply Forall_impl; [|exact Hall].
        intros j Hok. now apply job_step_nil_iff. }
      rewrite E. cbn [app].
      destruct (contains (u "runs-on: self-hosted") (lower content));
        [rewrite (Htext eq_refl)|]; reflexivity.
  - intros ->. now left.
  - intros -> ->. apply in_or_app. right. apply in_or_app. right. now left.
Qed.

(** A file that cannot be read, whose text is not YAML, or whose
    document is not a container (an empty file, a number, a boolean) adds
    two lines, the failure under the name of the file and the message, and
    makes the verdict negative; a syntax error of YAML is named as such,
    the other two as validation errors. *)
Lemma unreadable_files_are_reported (state : list str * bool) (f : Path) :
  (forall e,
      read_text fs f = inl e ->
      file_step fs state f
      = (fst state
           ++ [u "❌ " ++ path_name fs f ++ u ": Validation error";
               u "   Error: " ++ str_of_exn e],
         false))
  /\ (forall content message,
         read_text fs f = inr content ->
         safe_load fs content = YAMLError message ->
         file_step fs state f
         = (fst state
              ++ [u "❌ " ++ path_name fs f ++ u ": YAML syntax error";
                  u "   Error: " ++ message],
            false))
  /\ (forall content v,
         read_text fs f = inr content ->
         safe_load fs content = Parsed v ->
         yaml_contains v (u "on") = None ->
         file_step fs state f
         = (fst state
              ++ [u "❌ " ++ path_name fs f ++ u ": Validation error";
                  u "   Error: " ++ type_error_text fs v (u "in")],
            false))
  /\ (forall v, yaml_contains v (u "on") = None
                <-> v = YNull \/ (exists b, v = YBool b)
                    \/ (exists z, v = YInt z) \/ (exists s, v = YOther s)).
Proof.
  unfold file_step. split; [|split; [|split]].
  - intros e ->. reflexivity.
  - intros content message -> ->. reflexivity.
  - intros content v -> -> H. unfold structure_errors. rewrite H.
    reflexivity.
  - intros v. destruct v; cbn; split; intros H; try discriminate; eauto;
      destruct H as [H|[[? H]|[[? H]|[? H]]]]; discriminate.
Qed.

(** X24: the validator stops early, with the heading and one line, when
    the directory [.github/workflows] under the project root does not
    exist, when the named file does not exist in it, and when no file is
    named and nothing matches [*.yml] or [*.yaml]; an empty name counts as
    no name. *)
Theorem validation_early_exits (self : MCPServer) (w : World) :
  let dir := [project_root self; u ".github"; u "workflows"] in
  (forall workflow_file,
      path_exists w dir = inr false ->
      run (_validate_workflow_yaml fs self workflow_file) w
      = (inr (text_content
                (join [nl]
                   (validation_header
                      ++ [u "❌ No .github/workflows directory found"]))),
         [EvExists dir]))
  /\ (forall name,
         name <> [] ->
         path_exists w dir = inr true ->
         path_exists w (dir ++ [name]) = inr false ->
         run (_validate_workflow_yaml fs self (Some name)) w
         = (inr (text_content
                   (join [nl]
                      (validation_header
                         ++ [u "❌ Workflow file not found: " ++ name]))),
            [EvExists dir; EvExists (dir ++ [name])]))
  /\ (forall workflow_file,
         workflow_file = None \/ workflow_file = Some [] ->
         path_exists w dir = inr true ->
         glob fs dir (u "*.yml") = inr [] ->
         glob fs dir (u "*.yaml") = inr [] ->
         fst (run (_validate_workflow_yaml fs self workflow_file) w)
         = inr (text_content
                  (join [nl]
                     (validation_header
                        ++ [u "ℹ️  No workflow files found"])))).
Proof.
  forget_runtime.
  cbv zeta.
  unfold run, _validate_workflow_yaml, try_except_Exception, try_except,
    bind, Path_exists, lift, ret.
  split; [|split].
  - intros workflow_file ->. reflexivity.
  - intros name Hn Hdir Hfile. rewrite Hdir.
    assert (T : opt_truthy (Some name) = true)
      by (destruct name; [congruence | reflexivity]).
    cbn -[opt_truthy app]. rewrite T. cbn -[app].
    unfold Path, str, char in *. rewrite Hfile. reflexivity.
  - intros workflow_file [-> | ->] Hdir Hyml Hyaml;
      rewrite Hdir; cbn; rewrite Hyml; cbn; rewrite Hyaml; reflexivity.
Qed.

End WorkflowProperties.

End Server.

(** ** The theorems at concrete worlds *)


Lemma validation_failure_witness :
  fst (run (lint keep_non_ascii class_name server) no_compose_world)
  = inr (text_content
           (u "❌ Docker environment validation failed. Please ensure Docker is running and docker-compose.yml exists."))
  /\ spawned (snd (run (lint keep_non_ascii class_name server)
                     no_compose_world))
     = [].
Proof.
  pose proof
    (validation_failure_short_circuits keep_non_ascii class_name server
       no_compose_world (u "lint") (u "Running C++ linting checks...")
       300 false eq_refl) as H.
  split; [exact (proj1 H) | reflexivity].
Defined.

Lemma completed_report_witness :
  fst (run (full_ci keep_non_ascii class_name server)
         (docker_world
            (exits 2 (b_lit "Build complete") (b_lit "main.cpp:3: error: x")
               400)))
  = inr (text_content
           (join [nl]
              [u "🚀 Running complete CI pipeline...";
               u "📋 Command: docker-compose run --rm ci";
               u "⏱️  Execution time: 0.25s";
               [];
               u "❌ Failed with exit code 2";
               u "🔥 Error output:";
               u "🔥 main.cpp:3: error: x";
               u "📄 Standard output:";
               u "✅ Build complete"]))
  /\ ~ In 45 (format_2f (float_sub (quarters 1) (quarters 0))).
Proof.
  pose proof
    (completed_report keep_non_ascii class_name server
       (docker_world
          (exits 2 (b_lit "Build complete") (b_lit "main.cpp:3: error: x")
             400))
       (u "ci") (u "Running complete CI pipeline...") 600 false
       (exits 2 (b_lit "Build complete") (b_lit "main.cpp:3: error: x") 400)
       (u "Build complete") (u "main.cpp:3: error: x")
       eq_refl eq_refl) as H.
  assert (Ht : (runtime (exits 2 (b_lit "Build complete")
                           (b_lit "main.cpp:3: error: x") 400)
                <= inject_Z 600)%Q) by (vm_compute; discriminate).
  specialize (H Ht eq_refl (fun _ => eq_refl)).
  destruct H as (H & _ & _ & Hsign). split.
  - unfold full_ci. rewrite H. vm_compute. reflexivity.
  - assert (Hz : quarters 1 <> S754_zero true) by (vm_compute; discriminate).
    assert (Hle : (float_value (quarters 0) <= float_value (quarters 1))%Q)
      by (vm_compute; discriminate).
    exact (proj2 (proj2 (Hsign eq_refl eq_refl Hz Hle))).
Defined.

(** A clock that reads 252.43898956001436 and then 1762165823.5639896: the
    duration shown is the rounded float difference. *)
Example clock_step_report :
  fst (run (lint keep_non_ascii class_name server)
         (clock_step_world (exits 0 [] [] 2)))
  = inr (text_content
           (join [nl]
              [u "🚀 Running C++ linting checks...";
               u "📋 Command: docker-compose run --rm lint";
               u "⏱️  Execution time: 1762165571.12s";
               [];
               u "✅ Success!"])).
Proof. vm_compute. reflexivity. Qed.

Lemma lint_success_report_witness :
  fst (run (lint keep_non_ascii class_name server)
         (docker_world (exits 0 lint_stdout [] 2)))
  = inr (text_content
           (join [nl]
              [u "🚀 Running C++ linting checks...";
               u "📋 Command: docker-compose run --rm lint";
               u "⏱️  Execution time: 0.25s";
               [];
               u "✅ Success!";
               u "📄 Output:";
               u "🟡 Checking... 0 warnings";
               u "✅ All checks passed"])).
Proof.
  assert (Ht : (runtime (exits 0 lint_stdout [] 2) <= 300)%Q)
    by (vm_compute; discriminate).
  pose proof
    (lint_success_report keep_non_ascii class_name server
       (docker_world (exits 0 lint_stdout [] 2)) (exits 0 lint_stdout [] 2)
       eq_refl eq_refl eq_refl eq_refl Ht) as H.
  destruct H as [H _]. rewrite H. vm_compute. reflexivity.
Defined.

Lemma probe_terminal_branches_witness :
  fst (run (_check_workflow_runs class_name loads_empty_array opaque_repr true
              server 10 None) no_gh_world)
  = inr (text_content
           (join [nl]
              [u "🔍 GitHub Actions Workflow Status";
               u "========================================";
               [];
               u "❌ Error checking GitHub auth: FileNotFoundError";
               u "💡 Run: ./scripts/setup-github-auth.sh"]))
  /\ fst (run (_check_workflow_runs class_name loads_empty_array opaque_repr true
                 server 10 None)
            (gh_world (exits 0 [] [] 1) (exits 0 (b_lit "[]") [] 1)))
     = inr (text_content
              (join [nl]
                 [u "🔍 GitHub Actions Workflow Status";
                  u "========================================";
                  [];
                  u "ℹ️  No workflow runs found"])).
Proof.
  pose proof
    (probe_terminal_branches class_name loads_empty_array opaque_repr true server
       no_gh_world 10 None) as [H1 _].
  pose proof
    (probe_terminal_branches class_name loads_empty_array opaque_repr true server
       (gh_world (exits 0 [] [] 1) (exits 0 (b_lit "[]") [] 1)) 10 None)
    as [_ H2].
  split.
  - destruct (H1 eq_refl) as (guidance & Ha & _ & Hr & _).
    rewrite Hr. vm_compute in Ha. injection Ha as <-.
    vm_compute. reflexivity.
  - rewrite (H2 eq_refl (exits 0 (b_lit "[]") [] 1) (u "[]")
               eq_refl eq_refl eq_refl eq_refl).
    vm_compute. reflexivity.
Defined.

Example start_dev_env_spawns :
  spawned (snd (run (start_dev_env keep_non_ascii class_name server)
                  (docker_world (exits 0 [] [] 1))))
  = [[u "docker"; u "ps"];
     [u "docker-compose"; u "up"; u "mcp-server"; u "-d"]].
Proof. vm_compute. reflexivity. Qed.

Example one_run_report :
  fst (run (_check_workflow_runs class_name loads_one_run opaque_repr true
              server 10 (Some (u "ci.yml")))
         (gh_world (exits 0 [] [] 1) (exits 0 (b_lit "[...]") [] 1)))
  = inr (text_content
           (join [nl]
              [u "🔍 GitHub Actions Workflow Status";
               u "========================================";
               [];
               u "📊 Latest 1 Workflow Runs:";
               [];
               u "✅ **CI** (main)";
               u "   Status: completed | Conclusion: success";
               u "   Created: 2024-01-02 03:04:05";
               u "   Run ID: 42";
               u "   URL: https://github.com/o/r/actions/runs/42";
               []])).
Proof. vm_compute. reflexivity. Qed.

Example run_list_argv :
  gh_run_list_cmd 10 (Some (u "ci.yml"))
  = [u "gh"; u "run"; u "list"; u "--limit"; u "10"; u "--json";
     u "status,conclusion,name,createdAt,headBranch,workflowName,url,databaseId";
     u "--workflow"; u "ci.yml"].
Proof. vm_compute. reflexivity. Qed.

Example unauthenticated_report :
  fst (run (_check_workflow_runs class_name loads_one_run opaque_repr true
              server 10 None)
         (gh_world (exits 1 [] [] 1) (exits 0 (b_lit "[...]") [] 1)))
  = inr (text_content
           (join [nl]
              [u "🔍 GitHub Actions Workflow Status";
               u "========================================";
               [];
               u "❌ GitHub CLI not authenticated";
               u "🔧 Container setup:";
               u "  1. Set GITHUB_TOKEN environment variable";
               u "  2. Run: docker-compose up -d mcp-server";
               u "  3. Or run: ./scripts/setup-github-auth.sh";
               [];
               u "🔑 Token requirements for private repos:";
               u "  - repo (full control of private repositories)";
               u "  - workflow (update GitHub Action workflows)";
               u "  - read:org (read org and team membership)"]))
  /\ spawned (snd (run (_check_workflow_runs class_name loads_one_run
                          opaque_repr true server 10 None)
                     (gh_world (exits 1 [] [] 1)
                        (exits 0 (b_lit "[...]") [] 1))))
     = [[u "gh"; u "--version"]; [u "gh"; u "auth"; u "status"]].
Proof. vm_compute. split; reflexivity. Qed.

(** ** Where the specification and the code part *)

(** C2: the example line of the specification is tagged WARNING, not
    SUCCESS. *)
Lemma build_succeeded_line_is_warning :
  classify keep_non_ascii (u "Build succeeded despite 1 error warning")
  = WARNING
  /\ _format_command_output keep_non_ascii
       (u "Build succeeded despite 1 error warning")
     = u "🟡 Build succeeded despite 1 error warning"
  /\ contains (u "success") (u "build succeeded despite 1 error warning")
     = false.
Proof. vm_compute. repeat split. Qed.

(** C3: the first line of the example is rendered with the warning icon. *)
Lemma lint_first_line_is_warning :
  tags_of keep_non_ascii
    (u "Checking... 0 warnings" ++ [nl] ++ u "All checks passed")
  = [WARNING; SUCCESS]
  /\ fst (run (lint keep_non_ascii class_name server)
            (docker_world (exits 0 lint_stdout [] 2)))
     = inr (text_content
              (join [nl]
                 [u "🚀 Running C++ linting checks...";
                  u "📋 Command: docker-compose run --rm lint";
                  u "⏱️  Execution time: 0.25s";
                  [];
                  u "✅ Success!";
                  u "📄 Output:";
                  u "🟡 Checking... 0 warnings";
                  u "✅ All checks passed"])).
Proof. vm_compute. repeat split. Qed.

(** C4: a text that ends with a newline has two segments and is rendered
    as one line; empty lines at either end of the text are not kept. *)
Lemma trailing_newline_is_dropped :
  split nl (u "a" ++ [nl]) = [u "a"; []]
  /\ split nl (_format_command_output keep_non_ascii (u "a" ++ [nl]))
     = [u "a"]
  /\ split nl (_format_command_output keep_non_ascii
                 ([nl; nl] ++ u "a" ++ [nl; nl] ++ u "b" ++ [nl]))
     = [u "a"; []; u "b"].
Proof. vm_compute. repeat split. Qed.


(** C5: a completed run whose stdout is not valid UTF-8 is reported by the
    error message of the outer handler (here with [str(e)] reduced to the
    name of the class), without title, command or duration; and with a
    clock that was set back the duration shown is negative. *)
Lemma undecodable_output_report :
  fst (run (lint keep_non_ascii class_name server)
         (docker_world (exits 0 [xff] [] 2)))
  = inr (text_content (u "❌ Error executing command: UnicodeDecodeError"))
  /\ fst (run (lint keep_non_ascii class_name server)
            (clock_set_back_world (exits 0 [] [] 2)))
     = inr (text_content
              (join [nl]
                 [u "🚀 Running C++ linting checks...";
                  u "📋 Command: docker-compose run --rm lint";
                  u "⏱️  Execution time: -0.25s";
                  [];
                  u "✅ Success!"])).
Proof. vm_compute. repeat split. Qed.

(** C10: leading white space of the first line is not emitted. *)
Lemma error_output_trims_first_line :
  _format_error_output (u "  indented") = u "🔥 indented"
  /\ join [nl]
       (map (fun line => u "🔥 " ++ line)
            (filter nonblank (split nl (u "  indented"))))
     = u "🔥   indented".
Proof. vm_compute. repeat split. Qed.

(** ** The further properties at concrete worlds *)

Lemma classification_ignores_ascii_case_witness :
  classify keep_non_ascii (u "BUILD FAILED: Error 2") = ERROR
  /\ classify keep_non_ascii (u "build failed: error 2") = ERROR.
Proof.
  assert (A1 : Forall (fun c => c < 128) (u "BUILD FAILED: Error 2"))
    by (vm_compute; repeat constructor).
  assert (A2 : Forall (fun c => c < 128) (u "build failed: error 2"))
    by (vm_compute; repeat constructor).
  pose proof
    (classification_ignores_ascii_case keep_non_ascii
       (u "BUILD FAILED: Error 2") (u "build failed: error 2")
       A1 A2 eq_refl) as [H _].
  split; [rewrite H|]; vm_compute; reflexivity.
Defined.

Lemma spawn_failure_report_witness :
  fst (run (lint keep_non_ascii class_name server) no_compose_binary_world)
  = inr (text_content (u "❌ Error executing command: FileNotFoundError")).
Proof.
  pose proof
    (spawn_failure_report keep_non_ascii class_name server
       no_compose_binary_world (u "lint")
       (u "Running C++ linting checks...") 300 false
       (FileNotFoundError (u "docker-compose")) eq_refl eq_refl) as H.
  unfold lint. rewrite H. reflexivity.
Defined.

Lemma logged_out_guidance_witness :
  fst (run (_check_github_auth class_name) gh_token_world)
  = inr {| authenticated := false;
           messages :=
             [u "❌ GitHub CLI not authenticated";
              u "🔧 Container setup:";
              u "  1. GITHUB_TOKEN found in environment";
              u "  2. Run: echo $GITHUB_TOKEN | gh auth login --with-token";
              [];
              u "🔑 Token requirements for private repos:";
              u "  - repo (full control of private repositories)";
              u "  - workflow (update GitHub Action workflows)";
              u "  - read:org (read org and team membership)"] |}.
Proof.
  assert (N : returncode (exits 1 [] [] 0) <> 0%Z) by discriminate.
  pose proof
    (logged_out_guidance class_name gh_token_world
       (exits 0 [] [] 0) (exits 1 [] [] 0) eq_refl eq_refl eq_refl N) as H.
  rewrite H. reflexivity.
Defined.

Lemma run_list_failure_report_witness :
  fst (run (_check_workflow_runs class_name loads_one_run opaque_repr true
              server 10 None)
         (gh_world (exits 0 [] [] 1)
            (exits 1 (b_lit "[]") (b_lit "HTTP 404: workflow not found") 1)))
  = inr (text_content
           (join [nl]
              [u "🔍 GitHub Actions Workflow Status";
               u "========================================";
               [];
               u "ℹ️  No workflow runs found";
               u "💡 Check if this repository has GitHub Actions enabled"])).
Proof.
  assert (N : returncode
                (exits 1 (b_lit "[]") (b_lit "HTTP 404: workflow not found")
                   1) <> 0%Z) by discriminate.
  pose proof
    (run_list_failure_report class_name loads_one_run opaque_repr true server
       (gh_world (exits 0 [] [] 1)
          (exits 1 (b_lit "[]") (b_lit "HTTP 404: workflow not found") 1))
       10 None
       (exits 1 (b_lit "[]") (b_lit "HTTP 404: workflow not found") 1)
       eq_refl eq_refl N) as [H _].
  rewrite (H eq_refl). vm_compute. reflexivity.
Defined.

Lemma falsy_run_list_report_witness :
  fst (run (_check_workflow_runs class_name loads_null opaque_repr true
              server 10 None)
         (gh_world (exits 0 [] [] 1) (exits 0 (b_lit "null") [] 1)))
  = inr (text_content
           (join [nl]
              [u "🔍 GitHub Actions Workflow Status";
               u "========================================";
               [];
               u "ℹ️  No workflow runs found"])).
Proof.
  assert (I : In JNull
                [JList []; JNull; JBool false; JInt 0; JStr []; JDict []])
    by (right; now left).
  pose proof
    (falsy_run_list_report class_name loads_null opaque_repr true server
       (gh_world (exits 0 [] [] 1) (exits 0 (b_lit "null") [] 1)) 10 None
       (exits 0 (b_lit "null") [] 1) (u "null") JNull
       eq_refl eq_refl eq_refl eq_refl eq_refl I) as H.
  rewrite H. vm_compute. reflexivity.
Defined.

Lemma well_formed_runs_report_witness :
  fst (run (_check_workflow_runs class_name loads_one_run opaque_repr true
              server 10 None)
         (gh_world (exits 0 [] [] 1) (exits 0 (b_lit "[...]") [] 1)))
  = inr (text_content
           (join [nl]
              [u "🔍 GitHub Actions Workflow Status";
               u "========================================";
               [];
               u "📊 Latest 1 Workflow Runs:";
               [];
               u "✅ **CI** (main)";
               u "   Status: completed | Conclusion: success";
               u "   Created: 2024-01-02 03:04:05";
               u "   Run ID: 42";
               u "   URL: https://github.com/o/r/actions/runs/42";
               []])).
Proof.
  assert (R : Forall renderable
                [JDict [(u "status", JStr (u "completed"));
                        (u "conclusion", JStr (u "success"));
                        (u "workflowName", JStr (u "CI"));
                        (u "headBranch", JStr (u "main"));
                        (u "createdAt", JStr (u "2024-01-02T03:04:05Z"));
                        (u "url",
                         JStr (u "https://github.com/o/r/actions/runs/42"));
                        (u "databaseId", JInt 42)]]).
  { constructor; [|constructor]. eexists _, _. split; reflexivity. }
  assert (N : [JDict [(u "status", JStr (u "completed"));
                      (u "conclusion", JStr (u "success"));
                      (u "workflowName", JStr (u "CI"));
                      (u "headBranch", JStr (u "main"));
                      (u "createdAt", JStr (u "2024-01-02T03:04:05Z"));
                      (u "url",
                       JStr (u "https://github.com/o/r/actions/runs/42"));
                      (u "databaseId", JInt 42)]] <> []) by discriminate.
  pose proof
    (well_formed_runs_report class_name loads_one_run opaque_repr true server
       (gh_world (exits 0 [] [] 1) (exits 0 (b_lit "[...]") [] 1)) 10 None
       (exits 0 (b_lit "[...]") [] 1) (u "[...]") _
       eq_refl eq_refl eq_refl eq_refl eq_refl N R) as [H _].
  rewrite H. vm_compute. reflexivity.
Defined.

Lemma malformed_run_aborts_report_witness :
  exists e,
    fst (run (_check_workflow_runs class_name loads_bad_run opaque_repr true
                server 10 None)
           (gh_world (exits 0 [] [] 1) (exits 0 (b_lit "[...]") [] 1)))
    = inr (text_content (u "❌ Error checking workflow runs: "
                           ++ class_name e))
    /\ ((exists obj a, e = AttributeError obj a)
        \/ (exists obj o, e = TypeError obj o)
        \/ (true = true /\ exists obj k, e = KeyError obj k)).
Proof.
  assert (B : forall l,
             JList [JDict [(u "workflowName", JStr (u "CI"))];
                    JDict [(u "createdAt", JInt 0)]] = JList l ->
             Exists (fun r => ~ renderable r) l).
  { intros l E. injection E as <-. right. left.
    intros (d & c & E & F). injection E as <-. vm_compute in F.
    discriminate. }
  exact (malformed_run_aborts_report class_name loads_bad_run opaque_repr true
           server
           (gh_world (exits 0 [] [] 1) (exits 0 (b_lit "[...]") [] 1))
           10 None (exits 0 (b_lit "[...]") [] 1) (u "[...]") _
           eq_refl eq_refl eq_refl eq_refl eq_refl eq_refl B).
Defined.

(** An object for [createdAt]: the class of the exception depends on
    whether slices can be hashed. *)
Example object_created_at_report :
  fst (run (_check_workflow_runs class_name loads_object_created_at
              opaque_repr true server 10 None)
         (gh_world (exits 0 [] [] 1) (exits 0 (b_lit "[...]") [] 1)))
  = inr (text_content (u "❌ Error checking workflow runs: KeyError"))
  /\ fst (run (_check_workflow_runs class_name loads_object_created_at
                 opaque_repr false server 10 None)
            (gh_world (exits 0 [] [] 1) (exits 0 (b_lit "[...]") [] 1)))
     = inr (text_content (u "❌ Error checking workflow runs: TypeError")).
Proof. vm_compute. repeat split. Qed.

Lemma run_list_launch_failure_witness :
  fst (run (_check_workflow_runs class_name loads_one_run opaque_repr true
              server 10 None) missing_root_world)
  = inr (text_content
           (join [nl]
              [u "🔍 GitHub Actions Workflow Status";
               u "========================================";
               [];
               u "❌ GitHub CLI (gh) not found";
               u "💡 Install GitHub CLI: https://cli.github.com/";
               [];
               u "🔧 Alternative: Check workflows manually";
               u "   Visit: https://github.com/your-repo/actions"])).
Proof.
  pose proof
    (run_list_launch_failure class_name loads_one_run opaque_repr true server
       missing_root_world 10 None (FileNotFoundError (u "/workspace"))
       eq_refl eq_refl) as H.
  rewrite H. vm_compute. reflexivity.
Defined.

Lemma created_time_shown_witness :
  exists o,
    workflow_run_step opaque_repr true []
      (JDict [(u "createdAt", JStr (u "2024-01-02T03:04:05Z"))])
    = inr o
    /\ nth_error o 2 = Some (u "   Created: 2024-01-02 03:04:05").
Proof.
  assert (Nd : ~ In 84 (u "2024-01-02"))
    by (vm_compute; intuition discriminate).
  assert (Nt : ~ In 84 (u "03:04:05"))
    by (vm_compute; intuition discriminate).
  exact (created_time_shown opaque_repr true []
           [(u "createdAt", JStr (u "2024-01-02T03:04:05Z"))]
           (u "2024-01-02") (u "03:04:05") (u "Z")
           eq_refl eq_refl eq_refl Nd Nt).
Defined.

Lemma validation_report_and_verdict_witness :
  fst (run (_validate_workflow_yaml keep_non_ascii class_name two_workflows
              server None) (docker_world (exits 0 [] [] 0)))
  = inr (text_content
           (join [nl]
              [u "🔍 GitHub Actions YAML Validation";
               u "========================================";
               [];
               u "📋 Validating 2 workflow file(s):";
               [];
               u "✅ ci.yml: Valid";
               u "⚠️  deploy.yml:";
               u "   - Missing 'on' trigger definition";
               [];
               u "⚠️  Some workflow files have issues that need attention";
               [];
               u "💡 Helpful Commands:";
               u "   - Check workflow runs: Use 'check_workflow_runs' MCP tool";
               u "   - GitHub CLI: gh workflow list";
               u "   - GitHub CLI: gh run list --workflow <name>"])).
Proof.
  assert (N : [[u "/workspace"; u ".github"; u "workflows"; u "ci.yml"];
               [u "/workspace"; u ".github"; u "workflows"; u "deploy.yml"]]
              ++ [] <> []) by discriminate.
  pose proof
    (validation_report_and_verdict keep_non_ascii class_name two_workflows
       server (docker_world (exits 0 [] [] 0)) _ _
       eq_refl eq_refl eq_refl N) as [H _].
  rewrite H. vm_compute. reflexivity.
Defined.
